(** * MetaBase Python client: request pipeline and CRUD builders

    A shallow embedding of [metabase_client/types.py] and
    [metabase_client/client.py].  Python values are an inductive type,
    dictionaries are insertion-ordered association lists, and the effects of
    the pipeline (printing, sending a request, raising) are threaded through
    a small state-and-exception monad. *)

From Stdlib Require Import ZArith List String Ascii Bool Lia.
From Stdlib Require Import DecimalString.
Import ListNotations.

Set Warnings "-register-all".

Open Scope string_scope.
Open Scope Z_scope.

(** ** Characters and strings *)

Definition dquote : ascii := "034"%char.
Definition backslash : ascii := "092"%char.
Definition slash : ascii := "/"%char.

(** [str.lstrip(c)]: drop every leading occurrence of [c]. *)
Fixpoint lstrip (c : ascii) (s : string) : string :=
  match s with
  | EmptyString => EmptyString
  | String a t => if Ascii.eqb a c then lstrip c t else s
  end.

(** [str.rstrip(c)]: drop every trailing occurrence of [c]. *)
Fixpoint rstrip (c : ascii) (s : string) : string :=
  match s with
  | EmptyString => EmptyString
  | String a t =>
      match rstrip c t with
      | EmptyString => if Ascii.eqb a c then EmptyString else String a EmptyString
      | t' => String a t'
      end
  end.

Definition starts_with (c : ascii) (s : string) : bool :=
  match s with
  | EmptyString => false
  | String a _ => Ascii.eqb a c
  end.

Fixpoint ends_with (c : ascii) (s : string) : bool :=
  match s with
  | EmptyString => false
  | String a EmptyString => Ascii.eqb a c
  | String _ t => ends_with c t
  end.

(** [sep.join(parts)]. *)
Fixpoint join (sep : string) (parts : list string) : string :=
  match parts with
  | [] => EmptyString
  | [p] => p
  | p :: rest => p ++ sep ++ join sep rest
  end.

(** [str(n)] for a Python int. *)
Definition str_int (n : Z) : string := NilZero.string_of_int (Z.to_int n).

(** ** Python values

    The values that travel through the client: what [json.loads] produces
    and what callers put in filters and bodies, that is [None], booleans,
    integers, finite floats, strings, lists, tuples and dicts with string
    keys.  A float is kept as the text that [float.__repr__] gives it
    ([1.5], [1e-07], [-0.0]).  The infinities, [nan] and objects that
    [json] cannot encode are left out. *)

Inductive pyval : Type :=
| PNone
| PBool (b : bool)
| PInt (n : Z)
| PStr (s : string)
| PList (items : list pyval)
| PDict (entries : list (string * pyval))
| PFloat (repr : string)
| PTuple (items : list pyval).

(** A [dict] with string keys, in insertion order. *)
Definition dict : Type := list (string * pyval).

Fixpoint dict_get (d : dict) (key : string) : option pyval :=
  match d with
  | [] => None
  | (k, v) :: rest => if String.eqb k key then Some v else dict_get rest key
  end.

(** [d[key] = value]: an existing key keeps its position. *)
Fixpoint dict_set (d : dict) (key : string) (value : pyval) : dict :=
  match d with
  | [] => [(key, value)]
  | (k, v) :: rest =>
      if String.eqb k key then (k, value) :: rest
      else (k, v) :: dict_set rest key value
  end.

(** [{**a, **b}] and [a.update(b)]. *)
Definition dict_update (a b : dict) : dict :=
  fold_left (fun acc kv => dict_set acc (fst kv) (snd kv)) b a.

(** Truth value of an object, as [if x:] and [x or y] test it. *)
Definition truthy (v : pyval) : bool :=
  match v with
  | PNone => false
  | PBool b => b
  | PInt n => negb (n =? 0)
  | PStr s => negb (String.eqb s EmptyString)
  | PList l => match l with [] => false | _ => true end
  | PDict d => match d with [] => false | _ => true end
  | PFloat r => negb (String.eqb r "0.0" || String.eqb r "-0.0")
  | PTuple l => match l with [] => false | _ => true end
  end.

Definition py_or (a b : pyval) : pyval := if truthy a then a else b.

Definition isinstance_dict (v : pyval) : bool :=
  match v with PDict _ => true | _ => false end.

Definition isinstance_dict_or_list (v : pyval) : bool :=
  match v with PDict _ | PList _ => true | _ => false end.

Definition hex_digit (n : nat) : ascii :=
  match n with
  | 0 => "0" | 1 => "1" | 2 => "2" | 3 => "3" | 4 => "4" | 5 => "5"
  | 6 => "6" | 7 => "7" | 8 => "8" | 9 => "9" | 10 => "a" | 11 => "b"
  | 12 => "c" | 13 => "d" | 14 => "e" | _ => "f"
  end%nat%char.

Definition squote : ascii := "039"%char.

Fixpoint contains (c : ascii) (s : string) : bool :=
  match s with
  | EmptyString => false
  | String a t => Ascii.eqb a c || contains c t
  end.

(** [str.isprintable] on the code points below 256. *)
Definition isprintable (c : ascii) : bool :=
  let n := nat_of_ascii c in
  ((32 <=? n) && (n <=? 126) || (161 <=? n) && negb (n =? 173))%nat.

(** [repr] of a string: single quotes, unless the string has a single
    quote and no double quote; the quote and the backslash are escaped,
    and so is every character that is not printable. *)
Definition repr_char (quote c : ascii) : string :=
  let n := nat_of_ascii c in
  if Ascii.eqb c quote || Ascii.eqb c backslash then String backslash (String c EmptyString)
  else if (n =? 9)%nat then String backslash "t"
  else if (n =? 10)%nat then String backslash "n"
  else if (n =? 13)%nat then String backslash "r"
  else if isprintable c then String c EmptyString
  else String backslash
         (String "x" (String (hex_digit (n / 16)) (String (hex_digit (n mod 16)) EmptyString))).

Fixpoint repr_chars (quote : ascii) (s : string) : string :=
  match s with
  | EmptyString => EmptyString
  | String c t => repr_char quote c ++ repr_chars quote t
  end.

Definition repr_str (s : string) : string :=
  let quote := if contains squote s && negb (contains dquote s) then dquote else squote in
  String quote (repr_chars quote s ++ String quote EmptyString).

(** [repr(value)]. *)
Fixpoint py_repr (v : pyval) : string :=
  match v with
  | PNone => "None"
  | PBool true => "True"
  | PBool false => "False"
  | PInt n => str_int n
  | PStr s => repr_str s
  | PFloat r => r
  | PList items => "[" ++ join ", " (map py_repr items) ++ "]"
  | PTuple items =>
      match items with
      | [x] => "(" ++ py_repr x ++ ",)"
      | _ => "(" ++ join ", " (map py_repr items) ++ ")"
      end
  | PDict entries =>
      "{" ++ join ", " (map (fun kv => repr_str (fst kv) ++ ": " ++ py_repr (snd kv))
                            entries) ++ "}"
  end.

(** [str(value)]: the string itself for a string, [repr] for the rest. *)
Definition py_str (v : pyval) : string :=
  match v with
  | PStr s => s
  | _ => py_repr v
  end.

(** ** [json.dumps] with its default arguments

    Separators are [", "] and [": "], and [ensure_ascii] escapes every
    character outside the printable ASCII range.  A character of a string
    stands for the code point of the same number, so strings range over the
    code points below 256. *)

Definition json_escape_char (c : ascii) : string :=
  let n := nat_of_ascii c in
  if Ascii.eqb c dquote then String backslash (String dquote EmptyString)
  else if Ascii.eqb c backslash then String backslash (String backslash EmptyString)
  else if (n =? 10)%nat then String backslash "n"
  else if (n =? 13)%nat then String backslash "r"
  else if (n =? 9)%nat then String backslash "t"
  else if (n =? 8)%nat then String backslash "b"
  else if (n =? 12)%nat then String backslash "f"
  else if ((32 <=? n) && (n <=? 126))%nat then String c EmptyString
  else String backslash
         ("u00" ++ String (hex_digit (n / 16)) (String (hex_digit (n mod 16)) EmptyString)).

Fixpoint json_escape (s : string) : string :=
  match s with
  | EmptyString => EmptyString
  | String c t => json_escape_char c ++ json_escape t
  end.

Definition json_string (s : string) : string :=
  String dquote (json_escape s ++ String dquote EmptyString).

Fixpoint json_dumps (v : pyval) : string :=
  match v with
  | PNone => "null"
  | PBool true => "true"
  | PBool false => "false"
  | PInt n => str_int n
  | PStr s => json_string s
  | PFloat r => r
  | PList items | PTuple items => "[" ++ join ", " (map json_dumps items) ++ "]"
  | PDict entries =>
      "{" ++ join ", " (map (fun kv => json_string (fst kv) ++ ": " ++ json_dumps (snd kv))
                            entries) ++ "}"
  end.

(** [str.lower] on the code points below 256. *)
Definition lower_char (c : ascii) : ascii :=
  let n := nat_of_ascii c in
  if ((65 <=? n) && (n <=? 90) || (192 <=? n) && (n <=? 222) && negb (n =? 215))%nat
  then ascii_of_nat (n + 32) else c.

Fixpoint lower (s : string) : string :=
  match s with
  | EmptyString => EmptyString
  | String c t => String (lower_char c) (lower t)
  end.

(** ** [urllib.parse.urljoin]

    The function as CPython 3.11 has it, on strings.  [None] stands for the
    [ValueError] of [urlsplit] on a stray bracket, and for a bracketed
    host, whose validation is not modelled.  [_checknetloc] is left out:
    on code points below 256 it never raises. *)

(** [s.split(c, 1)] when [c] occurs in [s]: the text before the first
    [c] and the text after it. *)
Fixpoint split_first (c : ascii) (s : string) : option (string * string) :=
  match s with
  | EmptyString => None
  | String a t =>
      if Ascii.eqb a c then Some (EmptyString, t)
      else match split_first c t with
           | Some (before, after) => Some (String a before, after)
           | None => None
           end
  end.

(** [s.split(c)]. *)
Fixpoint split_on (c : ascii) (s : string) : list string :=
  match s with
  | EmptyString => [EmptyString]
  | String a t =>
      if Ascii.eqb a c then EmptyString :: split_on c t
      else match split_on c t with
           | first :: rest => String a first :: rest
           | [] => [String a EmptyString]
           end
  end.

(** [url.lstrip(_WHATWG_C0_CONTROL_OR_SPACE)]. *)
Fixpoint lstrip_c0 (s : string) : string :=
  match s with
  | EmptyString => EmptyString
  | String a t => if (nat_of_ascii a <=? 32)%nat then lstrip_c0 t else s
  end.

(** Tab, carriage return and line feed are removed wherever they are. *)
Fixpoint remove_unsafe (s : string) : string :=
  match s with
  | EmptyString => EmptyString
  | String a t =>
      let n := nat_of_ascii a in
      if ((n =? 9) || (n =? 10) || (n =? 13))%nat then remove_unsafe t
      else String a (remove_unsafe t)
  end.

Definition is_ascii_alpha (c : ascii) : bool :=
  let n := nat_of_ascii c in
  ((65 <=? n) && (n <=? 90) || (97 <=? n) && (n <=? 122))%nat.

Definition is_scheme_char (c : ascii) : bool :=
  let n := nat_of_ascii c in
  (is_ascii_alpha c || (48 <=? n) && (n <=? 57) || (n =? 43) || (n =? 45) || (n =? 46))%nat.

Fixpoint all_chars (p : ascii -> bool) (s : string) : bool :=
  match s with
  | EmptyString => true
  | String a t => p a && all_chars p t
  end.

Definition mem_string (s : string) (l : list string) : bool :=
  existsb (String.eqb s) l.

Definition uses_relative : list string :=
  [EmptyString; "ftp"; "http"; "gopher"; "nntp"; "imap"; "wais"; "file"; "https"; "shttp";
   "mms"; "prospero"; "rtsp"; "rtspu"; "sftp"; "svn"; "svn+ssh"; "ws"; "wss"].

Definition uses_netloc : list string :=
  [EmptyString; "ftp"; "http"; "gopher"; "nntp"; "telnet"; "imap"; "wais"; "file"; "mms";
   "https"; "shttp"; "snews"; "prospero"; "rtsp"; "rtspu"; "rsync"; "svn"; "svn+ssh";
   "sftp"; "nfs"; "git"; "git+ssh"; "ws"; "wss"].

Definition uses_params : list string :=
  [EmptyString; "ftp"; "hdl"; "prospero"; "http"; "imap"; "https"; "shttp"; "rtsp"; "rtspu";
   "sip"; "sips"; "mms"; "sftp"; "tel"].

Record ParseResult : Type := {
  p_scheme : string;
  p_netloc : string;
  p_path : string;
  p_params : string;
  p_query : string;
  p_fragment : string
}.

(** [_splitnetloc(url, 2)] on the text after the two slashes: the
    authority runs up to the first of [/], [?] and [#]. *)
Fixpoint splitnetloc (s : string) : string * string :=
  match s with
  | EmptyString => (EmptyString, EmptyString)
  | String a t =>
      if Ascii.eqb a "/" || Ascii.eqb a "?" || Ascii.eqb a "#" then (EmptyString, s)
      else let (netloc, rest) := splitnetloc t in (String a netloc, rest)
  end.

(** [_splitparams]: the parameters start at the first [;] of the last
    path segment. *)
Fixpoint splitparams (s : string) : string * string :=
  match s with
  | EmptyString => (EmptyString, EmptyString)
  | String a t =>
      if contains "/" t then
        let (path, params) := splitparams t in (String a path, params)
      else if Ascii.eqb a "/" then
        match split_first ";" t with
        | Some (before, after) => (String a before, after)
        | None => (s, EmptyString)
        end
      else
        match split_first ";" s with
        | Some (before, after) => (before, after)
        | None => (s, EmptyString)
        end
  end.

(** [urlparse(url, scheme)].  [None] stands for the [ValueError] of a
    stray bracket in the authority, and for a bracketed host, whose
    validation is not modelled. *)
Definition urlparse (url default_scheme : string) : option ParseResult :=
  let url := remove_unsafe (lstrip_c0 url) in
  let (scheme, url) :=
    match split_first ":" url with
    | Some (String a before' as before, after) =>
        if is_ascii_alpha a && all_chars is_scheme_char before
        then (lower before, after)
        else (default_scheme, url)
    | _ => (default_scheme, url)
    end in
  let (netloc, url) :=
    match url with
    | String "/" (String "/" rest) => splitnetloc rest
    | _ => (EmptyString, url)
    end in
  if contains "[" netloc || contains "]" netloc then None
  else
    let (url, fragment) :=
      match split_first "#" url with
      | Some (before, after) => (before, after)
      | None => (url, EmptyString)
      end in
    let (url, query) :=
      match split_first "?" url with
      | Some (before, after) => (before, after)
      | None => (url, EmptyString)
      end in
    let (url, params) :=
      if mem_string scheme uses_params && contains ";" url
      then splitparams url
      else (url, EmptyString) in
    Some {| p_scheme := scheme; p_netloc := netloc; p_path := url; p_params := params;
            p_query := query; p_fragment := fragment |}.

Definition nonempty (s : string) : bool :=
  match s with EmptyString => false | _ => true end.

Definition starts_with_slash (s : string) : bool :=
  match s with String "/" _ => true | _ => false end.

Definition starts_with_two_slashes (s : string) : bool :=
  match s with String "/" (String "/" _) => true | _ => false end.

(** [urlunparse]. *)
Definition urlunparse (r : ParseResult) : string :=
  let url := if nonempty (p_params r) then p_path r ++ ";" ++ p_params r else p_path r in
  let url :=
    if nonempty (p_netloc r)
       || (nonempty (p_scheme r) && mem_string (p_scheme r) uses_netloc
           && negb (starts_with_two_slashes url))
    then "//" ++ p_netloc r
         ++ (if nonempty url && negb (starts_with_slash url) then "/" ++ url else url)
    else url in
  let url := if nonempty (p_scheme r) then p_scheme r ++ ":" ++ url else url in
  let url := if nonempty (p_query r) then url ++ "?" ++ p_query r else url in
  if nonempty (p_fragment r) then url ++ "#" ++ p_fragment r else url.

(** [segments[1:-1] = filter(None, segments[1:-1])]. *)
Fixpoint filter_inner (segments : list string) : list string :=
  match segments with
  | [] => []
  | [last] => [last]
  | seg :: rest => if nonempty seg then seg :: filter_inner rest else filter_inner rest
  end.

Definition filter_middle (segments : list string) : list string :=
  match segments with
  | first :: rest => first :: filter_inner rest
  | [] => []
  end.

(** The loop over the segments; [resolved] is kept last segment first. *)
Fixpoint resolve_dots (segments resolved : list string) : list string :=
  match segments with
  | [] => rev resolved
  | seg :: rest =>
      if String.eqb seg ".." then resolve_dots rest (tl resolved)
      else if String.eqb seg "." then resolve_dots rest resolved
      else resolve_dots rest (seg :: resolved)
  end.

Definition urllib_urljoin (base url : string) : option string :=
  if negb (nonempty base) then Some url
  else if negb (nonempty url) then Some base
  else
    match urlparse base EmptyString with
    | None => None
    | Some b =>
        match urlparse url (p_scheme b) with
        | None => None
        | Some u =>
            let scheme := p_scheme u in
            if negb (String.eqb scheme (p_scheme b)) || negb (mem_string scheme uses_relative)
            then Some url
            else if mem_string scheme uses_netloc && nonempty (p_netloc u)
            then Some (urlunparse u)
            else
              let netloc := if mem_string scheme uses_netloc then p_netloc b else p_netloc u in
              if negb (nonempty (p_path u)) && negb (nonempty (p_params u)) then
                Some (urlunparse
                        {| p_scheme := scheme; p_netloc := netloc; p_path := p_path b;
                           p_params := p_params b;
                           p_query := if nonempty (p_query u) then p_query u else p_query b;
                           p_fragment := p_fragment u |})
              else
                let base_parts :=
                  let parts := split_on "/" (p_path b) in
                  if nonempty (last parts EmptyString) then removelast parts else parts in
                let segments :=
                  if starts_with_slash (p_path u) then split_on "/" (p_path u)
                  else filter_middle (base_parts ++ split_on "/" (p_path u))%list in
                let resolved := resolve_dots segments [] in
                let resolved :=
                  let final := last segments EmptyString in
                  if String.eqb final "." || String.eqb final ".."
                  then (resolved ++ [EmptyString])%list else resolved in
                let path := join "/" resolved in
                Some (urlunparse
                        {| p_scheme := scheme; p_netloc := netloc;
                           p_path := if nonempty path then path else "/";
                           p_params := p_params u; p_query := p_query u;
                           p_fragment := p_fragment u |})
        end
    end.

(** ** Clock

    [time.strftime('%Y-%m-%dT%H:%M:%SZ', time.gmtime())] formats the fields
    of a [struct_time]; [datetime.utcnow().isoformat()] is kept as the text
    the library returns. *)

Record struct_time : Type := {
  tm_year : Z;
  tm_mon : Z;
  tm_mday : Z;
  tm_hour : Z;
  tm_min : Z;
  tm_sec : Z
}.

Definition pad2 (n : Z) : string :=
  if n <? 10 then "0" ++ str_int n else str_int n.

Definition strftime_iso (t : struct_time) : string :=
  str_int (tm_year t) ++ "-" ++ pad2 (tm_mon t) ++ "-" ++ pad2 (tm_mday t) ++ "T"
  ++ pad2 (tm_hour t) ++ ":" ++ pad2 (tm_min t) ++ ":" ++ pad2 (tm_sec t) ++ "Z".

(** ** types.py *)

Record MetaBaseConfig : Type := {
  url : string;
  api_key : string;
  timeout : Z;
  headers : dict;
  debug : bool
}.

(** [MetaBaseConfig.__init__]: the trailing slashes of [url] are stripped,
    [headers] defaults to an empty dict ([headers or {}]). *)
Definition MetaBaseConfig_init
    (url_ api_key_ : string) (timeout_ : Z) (headers_ : option dict) (debug_ : bool)
  : MetaBaseConfig :=
  {| url := rstrip slash url_;
     api_key := api_key_;
     timeout := timeout_;
     headers := match headers_ with Some h => h | None => [] end;
     debug := debug_ |}.

Record APIError : Type := {
  code : pyval;
  message : pyval;
  details : pyval;
  timestamp : pyval
}.

(** [APIError.__init__]: [timestamp or datetime.utcnow().isoformat()]. *)
Definition APIError_init (utcnow_isoformat : string)
    (code_ message_ details_ timestamp_ : pyval) : APIError :=
  {| code := code_;
     message := message_;
     details := details_;
     timestamp := py_or timestamp_ (PStr utcnow_isoformat) |}.

Record APIResponse : Type := {
  data : pyval;
  count : pyval;
  limit : pyval;
  offset : pyval;
  has_next : pyval;
  error : option APIError
}.

(** [APIResponse.__init__]: six independent fields, each defaulting to
    [None]; any combination is accepted. *)
Definition APIResponse_init
    (data_ count_ limit_ offset_ has_next_ : pyval) (error_ : option APIError)
  : APIResponse :=
  {| data := data_; count := count_; limit := limit_; offset := offset_;
     has_next := has_next_; error := error_ |}.

Record JoinClause : Type := {
  join_type : string;
  join_table : string;
  join_alias : option string;
  join_condition : string
}.

Record QueryOptions : Type := {
  select : list string;
  where_ : dict;
  order : option string;
  q_limit : option Z;
  q_offset : option Z;
  joins : list JoinClause;
  group_by : list string;
  having : dict
}.

Definition or_empty {A : Type} (x : option (list A)) : list A :=
  match x with Some l => l | None => [] end.

(** [QueryOptions.__init__]: the sequence and mapping fields go through
    [x or []] / [x or {}]; [order], [limit] and [offset] are stored as given. *)
Definition QueryOptions_init
    (select_ : option (list string)) (where__ : option dict) (order_ : option string)
    (limit_ offset_ : option Z) (joins_ : option (list JoinClause))
    (group_by_ : option (list string)) (having_ : option dict) : QueryOptions :=
  {| select := or_empty select_;
     where_ := or_empty where__;
     order := order_;
     q_limit := limit_;
     q_offset := offset_;
     joins := or_empty joins_;
     group_by := or_empty group_by_;
     having := or_empty having_ |}.

Record InsertOptions : Type := { ins_returning : list string }.
Record UpdateOptions : Type := { upd_returning : list string }.

Definition InsertOptions_init (returning : option (list string)) : InsertOptions :=
  {| ins_returning := or_empty returning |}.
Definition UpdateOptions_init (returning : option (list string)) : UpdateOptions :=
  {| upd_returning := or_empty returning |}.

(** [id: Union[str, int]]. *)
Inductive record_id : Type :=
| IdStr (s : string)
| IdInt (n : Z).

Definition str_id (i : record_id) : string :=
  match i with IdStr s => s | IdInt n => str_int n end.

(** ** The HTTP library seen from the client *)

(** The request handed to [session.request]. *)
Record Request : Type := {
  req_method : string;
  req_url : string;
  req_json : option pyval;
  req_params : option dict;
  req_headers : dict
}.

(** What [response.json()] finds in the body. *)
Inductive response_body : Type :=
| JsonBody (value : pyval)
| Unparsable (description : string).

Record Response : Type := {
  status_code : Z;
  reason : string;
  body : response_body
}.

(** [session.request] either hands back a response or raises a
    [requests.exceptions.RequestException] (connection refused, DNS failure,
    timeout, ...) whose [str()] is the description. *)
Inductive transport_result : Type :=
| Responded (response : Response)
| TransportFailure (description : string).

(** Exceptions that the modelled code can raise.  [response.json()] raises
    [requests.exceptions.JSONDecodeError], which derives from both
    [json.JSONDecodeError] and [RequestException]. *)
Inductive exn : Type :=
| RequestException (description : string)
| RequestsJSONDecodeError (description : string)
| AttributeError (description : string).

Definition isinstance_RequestException (e : exn) : bool :=
  match e with
  | RequestException _ | RequestsJSONDecodeError _ => true
  | AttributeError _ => false
  end.

(** The clause [except (json.JSONDecodeError, KeyError)]. *)
Definition isinstance_JSONDecodeError_or_KeyError (e : exn) : bool :=
  match e with
  | RequestsJSONDecodeError _ => true
  | RequestException _ | AttributeError _ => false
  end.

Definition str_exn (e : exn) : string :=
  match e with
  | RequestException d | RequestsJSONDecodeError d | AttributeError d => d
  end.

(** Everything outside the client: [urllib.parse.urljoin], the network
    behind the session, and the two clock readings. *)
Record Env : Type := {
  urljoin : string -> string -> string;
  network : Request -> transport_result;
  gmtime : struct_time;
  utcnow_isoformat : string
}.

(** ** Effects

    [stdout] collects what [print] writes and [wire] the requests given to
    the session, both oldest first. *)

Inductive trace_line : Type :=
| TraceRequest (method url_ : string)   (* MetaBase Request: <method.upper()> <url> *)
| TraceData (data_ : pyval)            (* Data: <json.dumps(data, indent=2)> *)
| TraceParams (params : dict)          (* Params: <params> *)
| TraceStatus (status : Z).            (* Response Status: <status> *)

Record World : Type := {
  stdout : list trace_line;
  wire : list Request
}.

Inductive outcome (A : Type) : Type :=
| Return (a : A)
| Raise (e : exn).
Arguments Return {A} a.
Arguments Raise {A} e.

Definition M (A : Type) : Type := World -> outcome A * World.

Definition ret {A : Type} (a : A) : M A := fun w => (Return a, w).

Definition raise {A : Type} (e : exn) : M A := fun w => (Raise e, w).

Definition bind {A B : Type} (m : M A) (k : A -> M B) : M B :=
  fun w =>
    match m w with
    | (Return a, w') => k a w'
    | (Raise e, w') => (Raise e, w')
    end.

Notation "x <- m ;; k" := (bind m (fun x => k))
  (at level 61, m at next level, right associativity).
Notation "m ;; k" := (bind m (fun _ => k))
  (at level 61, right associativity).

(** [try: body / except <classes> as e: handler e]. *)
Definition try_except {A : Type} (body_ : M A) (classes : exn -> bool) (handler : exn -> M A)
  : M A :=
  fun w =>
    match body_ w with
    | (Raise e, w') => if classes e then handler e w' else (Raise e, w')
    | r => r
    end.

Definition print (line : trace_line) : M unit :=
  fun w => (Return tt, {| stdout := stdout w ++ [line]; wire := wire w |}).

Definition when (b : bool) (m : M unit) : M unit := if b then m else ret tt.

(** [value.get(key, default)]: a dict method; any other value has no
    attribute [get]. *)
Definition py_get (value : pyval) (key : string) (default : pyval) : M pyval :=
  match value with
  | PDict d => ret (match dict_get d key with Some v => v | None => default end)
  | _ => raise (AttributeError "object has no attribute 'get'")
  end.

(** [response.json()]. *)
Definition Response_json (response : Response) : M pyval :=
  match body response with
  | JsonBody v => ret v
  | Unparsable d => raise (RequestsJSONDecodeError d)
  end.

(** ** client.py *)

Record Session : Type := { session_headers : dict }.

Record MetaBaseClient : Type := {
  config : MetaBaseConfig;
  session : Session
}.

(** The headers of a [requests] session are a [CaseInsensitiveDict]:
    [d[key] = value] replaces the entry whose key has the same lower case,
    which keeps its place and takes the new spelling; a lookup ignores
    case as well. *)
Fixpoint ci_set (d : dict) (key : string) (value : pyval) : dict :=
  match d with
  | [] => [(key, value)]
  | (k, v) :: rest =>
      if String.eqb (lower k) (lower key) then (key, value) :: rest
      else (k, v) :: ci_set rest key value
  end.

Fixpoint ci_get (d : dict) (key : string) : option pyval :=
  match d with
  | [] => None
  | (k, v) :: rest =>
      if String.eqb (lower k) (lower key) then Some v else ci_get rest key
  end.

(** [headers.update(other)], entry by entry in the order of [other]. *)
Definition ci_update (a b : dict) : dict :=
  fold_left (fun acc kv => ci_set acc (fst kv) (snd kv)) b a.

(** [MetaBaseClient.__init__]: the three fixed headers and the caller's go
    into one dict literal, where a caller's header replaces a fixed one of
    the same spelling, and that dict updates the session's headers, where
    case is ignored.  The headers that [requests] itself gives a new
    session ([Accept], [Accept-Encoding], [Connection]) and the session's
    [timeout] attribute (a float number of seconds) are not modelled. *)
Definition MetaBaseClient_init (config_ : MetaBaseConfig) : MetaBaseClient :=
  {| config := config_;
     session :=
       {| session_headers :=
            ci_update []
              (dict_update
                 [("Authorization", PStr ("Bearer " ++ api_key config_));
                  ("Content-Type", PStr "application/json");
                  ("User-Agent", PStr "metabase-client-python/1.0.0")]
                 (headers config_)) |} |}.

Definition list_truthy {A : Type} (l : list A) : bool :=
  match l with [] => false | _ => true end.

(** An [Optional[int]] / [Optional[str]] attribute as the object it holds. *)
Definition py_of_int (n : option Z) : pyval :=
  match n with Some k => PInt k | None => PNone end.

Definition py_of_str (s : option string) : pyval :=
  match s with Some t => PStr t | None => PNone end.

(** The [params] dict that [query] builds before calling [_request]. *)
Definition query_params (options : option QueryOptions) : dict :=
  let params : dict := [] in
  match options with
  | None => params
  | Some options =>
      let params :=
        if list_truthy (select options)
        then dict_set params "select" (PStr (join "," (select options)))
        else params in
      let params :=
        if list_truthy (where_ options)
        then fold_left
               (fun params kv =>
                  let key := fst kv in
                  let value := snd kv in
                  if isinstance_dict_or_list value
                  then dict_set params key (PStr (json_dumps value))
                  else dict_set params key (PStr (py_str value)))
               (where_ options) params
        else params in
      let params :=
        if truthy (py_of_str (order options))
        then dict_set params "order" (py_of_str (order options))
        else params in
      let params :=
        if truthy (py_of_int (q_limit options))
        then dict_set params "limit" (py_of_int (q_limit options))
        else params in
      let params :=
        if truthy (py_of_int (q_offset options))
        then dict_set params "offset" (py_of_int (q_offset options))
        else params in
      params
  end.

(** [get]: [if select: params['select'] = ','.join(select)]. *)
Definition get_params (select_ : option (list string)) : dict :=
  let params : dict := [] in
  match select_ with
  | Some ((_ :: _) as cols) => dict_set params "select" (PStr (join "," cols))
  | _ => params
  end.

(** [insert], [update_one] and [delete_one]:
    [if options and options.returning:
       params['returning'] = ','.join(options.returning)]. *)
Definition insert_params (options : option InsertOptions) : dict :=
  let params : dict := [] in
  match options with
  | Some o =>
      if list_truthy (ins_returning o)
      then dict_set params "returning" (PStr (join "," (ins_returning o)))
      else params
  | None => params
  end.

Definition update_one_params (options : option UpdateOptions) : dict :=
  let params : dict := [] in
  match options with
  | Some o =>
      if list_truthy (upd_returning o)
      then dict_set params "returning" (PStr (join "," (upd_returning o)))
      else params
  | None => params
  end.

Definition delete_one_params (options : option UpdateOptions) : dict :=
  let params : dict := [] in
  match options with
  | Some o =>
      if list_truthy (upd_returning o)
      then dict_set params "returning" (PStr (join "," (upd_returning o)))
      else params
  | None => params
  end.

(** [update]: the keyword filters first, then [returning]. *)
Definition update_params (options : option UpdateOptions) (where_conditions : dict) : dict :=
  let params : dict := [] in
  let params :=
    fold_left
      (fun params kv =>
         let key := fst kv in
         let value := snd kv in
         if isinstance_dict_or_list value
         then dict_set params key (PStr (json_dumps value))
         else dict_set params key (PStr (py_str value)))
      where_conditions params in
  match options with
  | Some o =>
      if list_truthy (upd_returning o)
      then dict_set params "returning" (PStr (join "," (upd_returning o)))
      else params
  | None => params
  end.

(** [delete]: as [update], without a body. *)
Definition delete_params (options : option UpdateOptions) (where_conditions : dict) : dict :=
  let params : dict := [] in
  let params :=
    fold_left
      (fun params kv =>
         let key := fst kv in
         let value := snd kv in
         if isinstance_dict_or_list value
         then dict_set params key (PStr (json_dumps value))
         else dict_set params key (PStr (py_str value)))
      where_conditions params in
  match options with
  | Some o =>
      if list_truthy (upd_returning o)
      then dict_set params "returning" (PStr (join "," (upd_returning o)))
      else params
  | None => params
  end.

Section Pipeline.

Variable env : Env.

Definition now_strftime : pyval := PStr (strftime_iso (gmtime env)).

Definition new_APIError := APIError_init (utcnow_isoformat env).

(** [session.request(...)]: the request goes on the wire with the session's
    headers; a transport failure surfaces as a [RequestException]. *)
Definition session_request (s : Session)
    (method url_ : string) (json : option pyval) (params : option dict) : M Response :=
  fun w =>
    let request := {| req_method := method; req_url := url_; req_json := json;
                      req_params := params; req_headers := session_headers s |} in
    let w' := {| stdout := stdout w; wire := wire w ++ [request] |} in
    match network env request with
    | Responded response => (Return response, w')
    | TransportFailure description => (Raise (RequestException description), w')
    end.

Definition _handle_error (response : Response) : M APIError :=
  try_except
    (error_data <- Response_json response ;;
     error_info <- py_get error_data "error" (PDict []) ;;
     code_ <- py_get error_info "code" (PStr ("http_" ++ str_int (status_code response))) ;;
     message_ <- py_get error_info "message" (PStr (reason response)) ;;
     details_ <- py_get error_info "details" PNone ;;
     timestamp_ <- py_get error_info "timestamp" PNone ;;
     ret (new_APIError code_ message_ details_ timestamp_))
    isinstance_JSONDecodeError_or_KeyError
    (fun _ =>
       ret (new_APIError (PStr ("http_" ++ str_int (status_code response)))
                         (PStr (reason response)) PNone now_strftime)).

Definition opt_truthy (v : option pyval) : bool :=
  match v with Some x => truthy x | None => false end.

(** [urljoin(self.config.url + '/', endpoint.lstrip('/'))]. *)
Definition request_url (self : MetaBaseClient) (endpoint : string) : string :=
  urljoin env (url (config self) ++ "/") (lstrip slash endpoint).

Definition _request (self : MetaBaseClient)
    (method endpoint : string) (data_ : option pyval) (params : option dict)
  : M APIResponse :=
  let url_ := request_url self endpoint in
  when (debug (config self))
    (print (TraceRequest method url_) ;;
     match data_ with
     | Some d => when (truthy d) (print (TraceData d))
     | None => ret tt
     end ;;
     match params with
     | Some p => when (list_truthy p) (print (TraceParams p))
     | None => ret tt
     end) ;;
  try_except
    (response <- session_request (session self) method url_ data_ params ;;
     when (debug (config self)) (print (TraceStatus (status_code response))) ;;
     if 400 <=? status_code response then
       err <- _handle_error response ;;
       ret (APIResponse_init PNone PNone PNone PNone PNone (Some err))
     else
       response_data <- Response_json response ;;
       if isinstance_dict response_data then
         data' <- py_get response_data "data" PNone ;;
         count' <- py_get response_data "count" PNone ;;
         limit' <- py_get response_data "limit" PNone ;;
         offset' <- py_get response_data "offset" PNone ;;
         has_next' <- py_get response_data "has_next" PNone ;;
         ret (APIResponse_init data' count' limit' offset' has_next' None)
       else
         ret (APIResponse_init response_data PNone PNone PNone PNone None))
    isinstance_RequestException
    (fun e =>
       ret (APIResponse_init PNone PNone PNone PNone PNone
              (Some (new_APIError (PStr "network_error") (PStr (str_exn e))
                                  PNone now_strftime)))).

Definition health (self : MetaBaseClient) : M APIResponse :=
  _request self "GET" "/rest/health" None None.

Definition ping (self : MetaBaseClient) : M APIResponse :=
  _request self "GET" "/ping" None None.

Definition query (self : MetaBaseClient) (table : string) (options : option QueryOptions)
  : M APIResponse :=
  _request self "GET" ("/rest/v1/" ++ table) None (Some (query_params options)).

Definition get (self : MetaBaseClient) (table : string) (id : record_id)
    (select_ : option (list string)) : M APIResponse :=
  _request self "GET" ("/rest/v1/" ++ table ++ "/" ++ str_id id) None
           (Some (get_params select_)).

Definition insert (self : MetaBaseClient) (table : string) (data_ : pyval)
    (options : option InsertOptions) : M APIResponse :=
  _request self "POST" ("/rest/v1/" ++ table) (Some data_) (Some (insert_params options)).

Definition update (self : MetaBaseClient) (table : string) (data_ : pyval)
    (options : option UpdateOptions) (where_conditions : dict) : M APIResponse :=
  _request self "PATCH" ("/rest/v1/" ++ table) (Some data_)
           (Some (update_params options where_conditions)).

Definition update_one (self : MetaBaseClient) (table : string) (id : record_id)
    (data_ : pyval) (options : option UpdateOptions) : M APIResponse :=
  _request self "PATCH" ("/rest/v1/" ++ table ++ "/" ++ str_id id) (Some data_)
           (Some (update_one_params options)).

Definition delete (self : MetaBaseClient) (table : string)
    (options : option UpdateOptions) (where_conditions : dict) : M APIResponse :=
  _request self "DELETE" ("/rest/v1/" ++ table) None
           (Some (delete_params options where_conditions)).

Definition delete_one (self : MetaBaseClient) (table : string) (id : record_id)
    (options : option UpdateOptions) : M APIResponse :=
  _request self "DELETE" ("/rest/v1/" ++ table ++ "/" ++ str_id id) None
           (Some (delete_one_params options)).

Definition list_tables (self : MetaBaseClient) : M APIResponse :=
  _request self "GET" "/rest/v1" None None.

Definition get_table_schema (self : MetaBaseClient) (table : string) : M APIResponse :=
  _request self "GET" ("/rest/v1/" ++ table ++ "/schema") None None.

(** A call of one of the public operations, with its arguments. *)
Inductive operation : Type :=
| Health
| Ping
| Query (table : string) (options : option QueryOptions)
| Get (table : string) (id : record_id) (select_ : option (list string))
| Insert (table : string) (data_ : pyval) (options : option InsertOptions)
| Update (table : string) (data_ : pyval) (options : option UpdateOptions)
         (where_conditions : dict)
| UpdateOne (table : string) (id : record_id) (data_ : pyval)
            (options : option UpdateOptions)
| Delete (table : string) (options : option UpdateOptions) (where_conditions : dict)
| DeleteOne (table : string) (id : record_id) (options : option UpdateOptions)
| ListTables
| GetTableSchema (table : string).

Definition call (self : MetaBaseClient) (op : operation) : M APIResponse :=
  match op with
  | Health => health self
  | Ping => ping self
  | Query table options => query self table options
  | Get table id select_ => get self table id select_
  | Insert table data_ options => insert self table data_ options
  | Update table data_ options conds => update self table data_ options conds
  | UpdateOne table id data_ options => update_one self table id data_ options
  | Delete table options conds => delete self table options conds
  | DeleteOne table id options => delete_one self table id options
  | ListTables => list_tables self
  | GetTableSchema table => get_table_schema self table
  end.

End Pipeline.

(** ** Concrete surroundings for the examples *)

(** [urllib_urljoin] as the total function that an [Env] holds; where the
    library has no answer the empty string stands in. *)
Definition urllib_urljoin_total (base reference : string) : string :=
  match urllib_urljoin base reference with
  | Some joined => joined
  | None => EmptyString
  end.

Definition noon : struct_time :=
  {| tm_year := 2024; tm_mon := 3; tm_mday := 9; tm_hour := 12; tm_min := 0; tm_sec := 5 |}.

Definition env_with (net : Request -> transport_result) : Env :=
  {| urljoin := urllib_urljoin_total;
     network := net;
     gmtime := noon;
     utcnow_isoformat := "2024-03-09T12:00:05.000321" |}.

Definition server_says (status : Z) (phrase : string) (b : response_body) : Env :=
  env_with (fun _ => Responded {| status_code := status; reason := phrase; body := b |}).

Definition unreachable : Env :=
  env_with (fun _ => TransportFailure "Connection refused").

Definition fresh : World := {| stdout := []; wire := [] |}.

Definition local_client (debug_ : bool) : MetaBaseClient :=
  MetaBaseClient_init
    (MetaBaseConfig_init "http://localhost:7609/" "secret" 30000 None debug_).

(** ** Vocabulary of the properties *)

(** The request that [_request] hands to the session. *)
Definition built_request (env : Env) (self : MetaBaseClient)
    (method endpoint : string) (data_ : option pyval) (params : option dict) : Request :=
  {| req_method := method;
     req_url := request_url env self endpoint;
     req_json := data_;
     req_params := params;
     req_headers := session_headers (session self) |}.

(** The request of each public operation, as the table of the wire
    contract gives it. *)
Definition operation_request (env : Env) (self : MetaBaseClient) (op : operation)
  : Request :=
  match op with
  | Health => built_request env self "GET" "/rest/health" None None
  | Ping => built_request env self "GET" "/ping" None None
  | Query table options =>
      built_request env self "GET" ("/rest/v1/" ++ table) None
                    (Some (query_params options))
  | Get table id select_ =>
      built_request env self "GET" ("/rest/v1/" ++ table ++ "/" ++ str_id id) None
                    (Some (get_params select_))
  | Insert table data_ options =>
      built_request env self "POST" ("/rest/v1/" ++ table) (Some data_)
                    (Some (insert_params options))
  | Update table data_ options conds =>
      built_request env self "PATCH" ("/rest/v1/" ++ table) (Some data_)
                    (Some (update_params options conds))
  | UpdateOne table id data_ options =>
      built_request env self "PATCH" ("/rest/v1/" ++ table ++ "/" ++ str_id id)
                    (Some data_) (Some (update_one_params options))
  | Delete table options conds =>
      built_request env self "DELETE" ("/rest/v1/" ++ table) None
                    (Some (delete_params options conds))
  | DeleteOne table id options =>
      built_request env self "DELETE" ("/rest/v1/" ++ table ++ "/" ++ str_id id) None
                    (Some (delete_one_params options))
  | ListTables => built_request env self "GET" "/rest/v1" None None
  | GetTableSchema table =>
      built_request env self "GET" ("/rest/v1/" ++ table ++ "/schema") None None
  end.

(** An envelope that carries only an error. *)
Definition error_envelope (e : APIError) : APIResponse :=
  {| data := PNone; count := PNone; limit := PNone; offset := PNone;
     has_next := PNone; error := Some e |}.

Definition is_None (v : pyval) : bool :=
  match v with PNone => true | _ => false end.

Definition data_populated (r : APIResponse) : bool := negb (is_None (data r)).

Definition error_populated (r : APIResponse) : bool :=
  match error r with Some _ => true | None => false end.

Definition no_pagination (r : APIResponse) : Prop :=
  count r = PNone /\ limit r = PNone /\ offset r = PNone /\ has_next r = PNone.

(** [d.get(key)]: the value, or [None]. *)
Definition get_or_None (d : dict) (key : string) : pyval :=
  match dict_get d key with Some v => v | None => PNone end.

Definition get_or (d : dict) (key : string) (default : pyval) : pyval :=
  match dict_get d key with Some v => v | None => default end.

(** The pipeline read as a function of what the network answered: first
    the error of a response with status 400 or more, then the envelope, or
    the exception that leaves [_request]. *)
Definition no_get : exn := AttributeError "object has no attribute 'get'".

Definition http_code (response : Response) : pyval :=
  PStr ("http_" ++ str_int (status_code response)).

Definition error_of_response (env : Env) (response : Response) : outcome APIError :=
  match body response with
  | Unparsable _ =>
      Return (APIError_init (utcnow_isoformat env) (http_code response)
                (PStr (reason response)) PNone (PStr (strftime_iso (gmtime env))))
  | JsonBody (PDict d) =>
      match get_or d "error" (PDict []) with
      | PDict info =>
          Return (APIError_init (utcnow_isoformat env)
                    (get_or info "code" (http_code response))
                    (get_or info "message" (PStr (reason response)))
                    (get_or_None info "details")
                    (get_or_None info "timestamp"))
      | _ => Raise no_get
      end
  | JsonBody _ => Raise no_get
  end.

Definition network_error (env : Env) (description : string) : APIError :=
  {| code := PStr "network_error";
     message := PStr description;
     details := PNone;
     timestamp := PStr (strftime_iso (gmtime env)) |}.

Definition envelope_of (env : Env) (answer : transport_result) : outcome APIResponse :=
  match answer with
  | TransportFailure description =>
      Return (error_envelope (network_error env description))
  | Responded response =>
      if 400 <=? status_code response then
        match error_of_response env response with
        | Return e => Return (error_envelope e)
        | Raise x => Raise x
        end
      else
        match body response with
        | Unparsable description =>
            Return (error_envelope (network_error env description))
        | JsonBody (PDict d) =>
            Return {| data := get_or_None d "data";
                      count := get_or_None d "count";
                      limit := get_or_None d "limit";
                      offset := get_or_None d "offset";
                      has_next := get_or_None d "has_next";
                      error := None |}
        | JsonBody v =>
            Return {| data := v; count := PNone; limit := PNone; offset := PNone;
                      has_next := PNone; error := None |}
        end
  end.

(** What [debug] prints during one call. *)
Definition debug_trace (self : MetaBaseClient) (request : Request)
    (answer : transport_result) : list trace_line :=
  if debug (config self) then
    ([TraceRequest (req_method request) (req_url request)]
     ++ match req_json request with
        | Some d => if truthy d then [TraceData d] else []
        | None => []
        end
     ++ match req_params request with
        | Some p => if list_truthy p then [TraceParams p] else []
        | None => []
        end
     ++ match answer with
        | Responded response => [TraceStatus (status_code response)]
        | TransportFailure _ => []
        end)%list
  else [].

(** The text a filter value travels as: JSON for a mapping or a sequence,
    the string form for a scalar. *)
Definition filter_text (value : pyval) : pyval :=
  PStr (if isinstance_dict_or_list value then json_dumps value else py_str value).

(** One step of the filter loop, with the rule written once. *)
Definition add_condition (params : dict) (kv : string * pyval) : dict :=
  dict_set params (fst kv) (filter_text (snd kv)).

Definition has_key (d : dict) (key : string) : bool :=
  match dict_get d key with Some _ => true | None => false end.

(** The envelope that the specification gives for a decoded body: only a
    mapping with a [data] key is unwrapped, every other body is the
    payload. *)
Definition spec_success_envelope (decoded : pyval) : APIResponse :=
  let whole := {| data := decoded; count := PNone; limit := PNone; offset := PNone;
                  has_next := PNone; error := None |} in
  match decoded with
  | PDict d =>
      match dict_get d "data" with
      | Some x => {| data := x;
                     count := get_or_None d "count";
                     limit := get_or_None d "limit";
                     offset := get_or_None d "offset";
                     has_next := get_or_None d "has_next";
                     error := None |}
      | None => whole
      end
  | _ => whole
  end.

(** The error that the specification gives for an [error] mapping: each of
    the four fields is the mapping's when present, its fallback when
    absent. *)
Definition spec_error_info (env : Env) (response : Response) (info : dict) : APIError :=
  {| code := get_or info "code" (http_code response);
     message := get_or info "message" (PStr (reason response));
     details := get_or_None info "details";
     timestamp := get_or info "timestamp" (PStr (utcnow_isoformat env)) |}.

(** The scenario [query("users", {select: ["id", "name"],
    where: {"age": {"gte": 18}}, limit: 10})]. *)
Definition adults : QueryOptions :=
  QueryOptions_init (Some ["id"; "name"]) (Some [("age", PDict [("gte", PInt 18)])])
                    None (Some 10) None None None None.

Definition quoted (s : string) : string := String dquote (s ++ String dquote EmptyString).

(** The parameters as the scenario writes them, and as [json.dumps] makes
    them. *)
Definition adults_params_written : dict :=
  [("select", PStr "id,name"); ("age", PStr ("{" ++ quoted "gte" ++ ":18}"));
   ("limit", PInt 10)].

Definition adults_params : dict :=
  [("select", PStr "id,name"); ("age", PStr ("{" ++ quoted "gte" ++ ": 18}"));
   ("limit", PInt 10)].

(** A run of [n] slashes. *)
Fixpoint slashes (n : nat) : string :=
  match n with
  | O => EmptyString
  | S k => String slash (slashes k)
  end.

(** A body on which [_handle_error] finds no [get]: decoded, but not a
    mapping, or a mapping whose [error] is not one. *)
Definition ill_shaped (b : response_body) : bool :=
  match b with
  | Unparsable _ => false
  | JsonBody (PDict entries) =>
      match dict_get entries "error" with
      | Some (PDict _) | None => false
      | Some _ => true
      end
  | JsonBody _ => true
  end.

(** The columns of a [returning] option, none when there is no option. *)
Definition returning_columns (options : option UpdateOptions) : list string :=
  match options with Some o => upd_returning o | None => [] end.

(** Hosts and path segments without a character that [urljoin] treats
    specially. *)
Definition is_path_char (c : ascii) : bool :=
  let n := nat_of_ascii c in
  ((33 <=? n) && negb (Ascii.eqb c "/") && negb (Ascii.eqb c "?") && negb (Ascii.eqb c "#")
   && negb (Ascii.eqb c ";") && negb (Ascii.eqb c ":"))%nat.

Definition is_host_char (c : ascii) : bool :=
  let n := nat_of_ascii c in
  ((33 <=? n) && negb (Ascii.eqb c "/") && negb (Ascii.eqb c "?") && negb (Ascii.eqb c "#")
   && negb (Ascii.eqb c "[") && negb (Ascii.eqb c "]"))%nat.

Definition plain_segment (s : string) : bool :=
  nonempty s && all_chars is_path_char s
  && negb (String.eqb s ".") && negb (String.eqb s "..").

Definition plain_host (s : string) : bool := nonempty s && all_chars is_host_char s.

Fixpoint dir_path (dirs : list string) : string :=
  match dirs with
  | [] => EmptyString
  | d :: rest => "/" ++ d ++ dir_path rest
  end.

Definition is_safe (c : ascii) : bool :=
  let n := nat_of_ascii c in negb ((n =? 9) || (n =? 10) || (n =? 13))%nat.

Definition plain_segments (l : list string) : Prop :=
  Forall (fun s => plain_segment s = true) l.

Definition is_path_or_slash (c : ascii) : bool := is_path_char c || Ascii.eqb c "/".

Definition web_scheme (s : string) : Prop := s = "http" \/ s = "https".

(** An environment whose [urljoin] is the library's, wherever that
    returns. *)
Definition backed_by_urllib (env : Env) : Prop :=
  forall base reference joined,
    urllib_urljoin base reference = Some joined -> urljoin env base reference = joined.

(** The entries of a dict whose key is [key] up to case, in order. *)
Definition ci_matches (d : dict) (key : string) : dict :=
  filter (fun kv => String.eqb (lower (fst kv)) (lower key)) d.

(** * Properties *)

(** ** Strings *)

Lemma rstrip_snoc (c : ascii) (s : string) :
  rstrip c (s ++ String c EmptyString) = rstrip c s.
Proof.
  induction s as [|a t IH]; simpl.
  - now rewrite Ascii.eqb_refl.
  - now rewrite IH.
Qed.

Lemma rstrip_not_ends_with (c : ascii) (s : string) :
  ends_with c (rstrip c s) = false.
Proof.
  induction s as [|a t IH]; simpl; auto.
  destruct (rstrip c t) as [|b u] eqn:E.
  - destruct (Ascii.eqb a c) eqn:Eac; simpl; auto.
  - exact IH.
Qed.

Lemma lstrip_not_starts_with (c : ascii) (s : string) :
  starts_with c (lstrip c s) = false.
Proof.
  induction s as [|a t IH]; simpl; auto.
  destruct (Ascii.eqb a c) eqn:E; simpl; auto.
Qed.

Lemma append_cons_nonempty (s : string) (c : ascii) (t : string) :
  String.eqb (s ++ String c t) EmptyString = false.
Proof. destruct s; reflexivity. Qed.

Lemma strftime_iso_truthy (t : struct_time) :
  truthy (PStr (strftime_iso t)) = true.
Proof.
  unfold strftime_iso; simpl.
  now rewrite (append_cons_nonempty (str_int (tm_year t)) "-").
Qed.

Lemma append_assoc (a b c : string) : (a ++ b) ++ c = a ++ (b ++ c).
Proof. induction a as [|x a IH]; simpl; congruence. Qed.

Lemma append_empty (s : string) : s ++ EmptyString = s.
Proof. induction s as [|a t IH]; simpl; congruence. Qed.

Lemma append_snoc (s t : string) (c : ascii) :
  s ++ String c t = (s ++ String c EmptyString) ++ t.
Proof. induction s as [|a u IH]; simpl; congruence. Qed.

Lemma rstrip_slashes (s : string) (n : nat) :
  rstrip slash (s ++ slashes n) = rstrip slash s.
Proof.
  revert s. induction n as [|n IH]; intros s; simpl.
  - now rewrite append_empty.
  - now rewrite append_snoc, IH, rstrip_snoc.
Qed.

Lemma lstrip_slashes (s : string) (n : nat) :
  lstrip slash (slashes n ++ s) = lstrip slash s.
Proof. induction n as [|n IH]; simpl; auto. Qed.

Lemma rstrip_decompose (s : string) :
  exists n, s = rstrip slash s ++ slashes n.
Proof.
  induction s as [|a t [n IH]]; simpl.
  - now exists O.
  - destruct (rstrip slash t) as [|b u] eqn:E; simpl in IH.
    + destruct (Ascii.eqb a slash) eqn:Ea.
      * apply Ascii.eqb_eq in Ea. subst a. exists (S n). simpl. congruence.
      * exists n. simpl. congruence.
    + exists n. simpl. congruence.
Qed.

Lemma lstrip_decompose (s : string) :
  exists n, s = slashes n ++ lstrip slash s.
Proof.
  induction s as [|a t [n IH]]; simpl.
  - now exists O.
  - destruct (Ascii.eqb a slash) eqn:Ea.
    + apply Ascii.eqb_eq in Ea. subst a. exists (S n). simpl. congruence.
    + now exists O.
Qed.

(** ** [urljoin] on plain operands *)

Lemma all_chars_app p a b : all_chars p (a ++ b) = all_chars p a && all_chars p b.
Proof. induction a as [|x a IH]; simpl; auto. now rewrite IH, andb_assoc. Qed.


Lemma remove_unsafe_id s : all_chars is_safe s = true -> remove_unsafe s = s.
Proof.
  induction s as [|a t IH]; simpl; auto.
  unfold is_safe at 1. intros H. apply andb_prop in H as [Ha Ht].
  apply negb_true_iff in Ha. rewrite Ha. now rewrite IH.
Qed.

Lemma all_chars_impl (p q : ascii -> bool) s :
  (forall c, p c = true -> q c = true) -> all_chars p s = true -> all_chars q s = true.
Proof.
  intros Hpq. induction s as [|a t IH]; simpl; auto.
  intros H. apply andb_prop in H as [Ha Ht]. now rewrite (Hpq a Ha), IH.
Qed.

Lemma path_char_safe c : is_path_char c = true -> is_safe c = true.
Proof.
  unfold is_path_char, is_safe. intros H.
  repeat (apply andb_prop in H as [H ?]).
  apply Nat.leb_le in H.
  apply negb_true_iff. repeat (apply orb_false_iff; split); apply Nat.eqb_neq; lia.
Qed.

Lemma host_char_safe c : is_host_char c = true -> is_safe c = true.
Proof.
  unfold is_host_char, is_safe. intros H.
  repeat (apply andb_prop in H as [H ?]).
  apply Nat.leb_le in H.
  apply negb_true_iff. repeat (apply orb_false_iff; split); apply Nat.eqb_neq; lia.
Qed.

Lemma contains_app c a b : contains c (a ++ b) = contains c a || contains c b.
Proof. induction a as [|x a IH]; simpl; auto. now rewrite IH, orb_assoc. Qed.

Lemma contains_all_chars (p : ascii -> bool) c s :
  p c = false -> all_chars p s = true -> contains c s = false.
Proof.
  intros Hc. induction s as [|a t IH]; simpl; auto.
  intros H. apply andb_prop in H as [Ha Ht]. rewrite (IH Ht), orb_false_r.
  destruct (Ascii.eqb a c) eqn:E; auto. apply Ascii.eqb_eq in E. congruence.
Qed.

Lemma split_first_none c s : contains c s = false -> split_first c s = None.
Proof.
  induction s as [|a t IH]; simpl; auto.
  intros H. apply orb_false_iff in H as [Ha Ht]. now rewrite Ha, IH.
Qed.

Lemma split_on_no_sep c s : contains c s = false -> split_on c s = [s].
Proof.
  induction s as [|a t IH]; simpl; auto.
  intros H. apply orb_false_iff in H as [Ha Ht]. now rewrite Ha, IH.
Qed.

Lemma split_on_app c s t :
  contains c s = false -> split_on c (s ++ String c t) = s :: split_on c t.
Proof.
  induction s as [|a u IH]; simpl.
  - now rewrite Ascii.eqb_refl.
  - intros H. apply orb_false_iff in H as [Ha Hu]. now rewrite Ha, IH.
Qed.

Lemma plain_segment_facts s :
  plain_segment s = true ->
  nonempty s = true /\ all_chars is_path_char s = true
  /\ String.eqb s "." = false /\ String.eqb s ".." = false.
Proof.
  unfold plain_segment. intros H.
  repeat (apply andb_prop in H as [H ?]).
  repeat split; auto; now apply negb_true_iff.
Qed.

Lemma path_chars_lack (c : ascii) s :
  is_path_char c = false -> all_chars is_path_char s = true -> contains c s = false.
Proof. apply contains_all_chars. Qed.



Lemma dir_path_chars dirs :
  plain_segments dirs -> all_chars is_path_or_slash (dir_path dirs) = true.
Proof.
  induction 1 as [|d rest Hd _ IH]; simpl; auto.
  rewrite all_chars_app, IH, andb_true_r.
  apply plain_segment_facts in Hd as [_ [Hd _]].
  revert Hd. apply all_chars_impl. intros c Hc. unfold is_path_or_slash. now rewrite Hc.
Qed.

Lemma join_chars segs :
  plain_segments segs -> all_chars is_path_or_slash (join "/" segs) = true.
Proof.
  induction 1 as [|d rest Hd _ IH]; simpl; auto.
  apply plain_segment_facts in Hd as [_ [Hd _]].
  assert (Hd' : all_chars is_path_or_slash d = true).
  { revert Hd. apply all_chars_impl. intros c Hc. unfold is_path_or_slash. now rewrite Hc. }
  destruct rest; auto.
  rewrite all_chars_app, Hd'. simpl in *. exact IH.
Qed.

Lemma path_or_slash_safe c : is_path_or_slash c = true -> is_safe c = true.
Proof.
  unfold is_path_or_slash. intros H. apply orb_prop in H as [H | H].
  - now apply path_char_safe.
  - apply Ascii.eqb_eq in H. now subst.
Qed.

Lemma path_or_slash_lacks c s :
  is_path_or_slash c = false -> all_chars is_path_or_slash s = true -> contains c s = false.
Proof. apply contains_all_chars. Qed.

Lemma splitnetloc_host host rest :
  all_chars is_host_char host = true ->
  splitnetloc (host ++ String "/" rest) = (host, String "/" rest).
Proof.
  induction host as [|a t IH]; simpl; auto.
  intros H. apply andb_prop in H as [Ha Ht].
  rewrite (IH Ht).
  unfold is_host_char in Ha. repeat (apply andb_prop in Ha as [Ha ?]).
  repeat match goal with H : negb _ = true |- _ => apply negb_true_iff in H; rewrite H end.
  reflexivity.
Qed.

Lemma split_on_cons c u : split_on c (String c u) = EmptyString :: split_on c u.
Proof. simpl. now rewrite Ascii.eqb_refl. Qed.

Lemma dir_path_slash_head rest :
  exists u, dir_path rest ++ "/" = String "/" u.
Proof. destruct rest; simpl; eexists; reflexivity. Qed.

Lemma split_on_dir_path dirs :
  plain_segments dirs ->
  split_on "/" (dir_path dirs ++ "/") = (EmptyString :: dirs ++ [EmptyString])%list.
Proof.
  induction 1 as [|d rest Hd _ IH]; [reflexivity|].
  apply plain_segment_facts in Hd as [_ [Hd _]].
  change (dir_path (d :: rest) ++ "/") with (String "/" ((d ++ dir_path rest) ++ "/")).
  rewrite split_on_cons, append_assoc.
  destruct (dir_path_slash_head rest) as [u Hu].
  rewrite Hu in IH |- *.
  rewrite split_on_cons in IH. inversion IH as [IH'].
  rewrite split_on_app by (apply (path_chars_lack "/" d); auto).
  now rewrite IH'.
Qed.

Lemma split_on_join segs :
  plain_segments segs -> segs <> [] -> split_on "/" (join "/" segs) = segs.
Proof.
  induction 1 as [|d rest Hd Hrest IH]; [congruence|]. intros _.
  apply plain_segment_facts in Hd as [_ [Hd _]].
  destruct rest as [|e rest'].
  - simpl. apply split_on_no_sep. apply (path_chars_lack "/" d); auto.
  - change (join "/" (d :: e :: rest')) with (d ++ String "/" (join "/" (e :: rest'))).
    rewrite split_on_app by (apply (path_chars_lack "/" d); auto).
    rewrite IH; congruence.
Qed.

Lemma filter_inner_nonempty segs :
  Forall (fun s => nonempty s = true) segs -> filter_inner segs = segs.
Proof.
  induction 1 as [|d rest Hd _ IH]; simpl; auto.
  destruct rest; auto. now rewrite Hd, IH.
Qed.

Lemma filter_inner_app dirs segs :
  Forall (fun s => nonempty s = true) dirs ->
  Forall (fun s => nonempty s = true) segs -> segs <> [] ->
  filter_inner (dirs ++ EmptyString :: segs) = (dirs ++ segs)%list.
Proof.
  intros Hd Hs Hne. induction Hd as [|d rest Hd _ IH]; simpl.
  - destruct segs; [congruence|]. now apply filter_inner_nonempty.
  - destruct (rest ++ EmptyString :: segs)%list eqn:E.
    + destruct rest; discriminate.
    + rewrite Hd. now rewrite <- IH.
Qed.

Lemma resolve_dots_plain segs acc :
  Forall (fun s => String.eqb s "." = false /\ String.eqb s ".." = false) segs ->
  resolve_dots segs acc = (rev acc ++ segs)%list.
Proof.
  intros H. revert acc. induction H as [|d rest [Hd1 Hd2] _ IH]; intros acc; simpl.
  - now rewrite app_nil_r.
  - rewrite Hd1, Hd2, IH. simpl. now rewrite <- app_assoc.
Qed.

Lemma join_dir_path segs :
  segs <> [] -> join "/" (EmptyString :: segs) = dir_path segs.
Proof.
  intros Hne. destruct segs as [|d rest]; [congruence|].
  clear Hne. revert d. induction rest as [|e rest IH]; intros d.
  - simpl. now rewrite append_empty.
  - specialize (IH e).
    change (join "/" (EmptyString :: d :: e :: rest))
      with ("/" ++ d ++ join "/" (EmptyString :: e :: rest)).
    now rewrite IH.
Qed.

Lemma dir_path_app dirs segs :
  dir_path (dirs ++ segs) = dir_path dirs ++ dir_path segs.
Proof.
  induction dirs as [|d rest IH]; simpl; auto.
  now rewrite IH, append_assoc.
Qed.

Lemma dir_path_join segs :
  segs <> [] -> dir_path segs = "/" ++ join "/" segs.
Proof.
  intros Hne. rewrite <- join_dir_path by assumption.
  destruct segs; [congruence|reflexivity].
Qed.

Lemma host_chars_lack (c : ascii) s :
  is_host_char c = false -> all_chars is_host_char s = true -> contains c s = false.
Proof. apply contains_all_chars. Qed.

Lemma lstrip_c0_keep a t :
  (nat_of_ascii a <=? 32)%nat = false -> lstrip_c0 (String a t) = String a t.
Proof. intros H. simpl. now rewrite H. Qed.


Lemma urlparse_base scheme host dirs :
  web_scheme scheme -> plain_host host = true -> plain_segments dirs ->
  urlparse (scheme ++ "://" ++ host ++ dir_path dirs ++ "/") EmptyString
  = Some {| p_scheme := scheme; p_netloc := host; p_path := dir_path dirs ++ "/";
            p_params := EmptyString; p_query := EmptyString; p_fragment := EmptyString |}.
Proof.
  intros Hs Hh Hd.
  unfold plain_host in Hh. apply andb_prop in Hh as [Hne Hh].
  pose proof (dir_path_chars dirs Hd) as Hp.
  assert (Hp' : all_chars is_path_or_slash (dir_path dirs ++ "/") = true)
    by (rewrite all_chars_app, Hp; reflexivity).
  destruct (dir_path_slash_head dirs) as [u Hu].
  assert (Hsafe : all_chars is_safe (host ++ dir_path dirs ++ "/") = true).
  { rewrite all_chars_app.
    rewrite (all_chars_impl _ _ _ host_char_safe Hh).
    now rewrite (all_chars_impl _ _ _ path_or_slash_safe Hp'). }
  assert (Hrest : host ++ dir_path dirs ++ "/" = host ++ String "/" u)
    by (now rewrite Hu).
  assert (Hbr : contains "[" host || contains "]" host = false).
  { rewrite (host_chars_lack "[" host), (host_chars_lack "]" host); auto. }
  assert (Hfrag : split_first "#" (String "/" u) = None).
  { rewrite <- Hu. apply split_first_none. now apply (path_or_slash_lacks "#"). }
  assert (Hquery : split_first "?" (String "/" u) = None).
  { rewrite <- Hu. apply split_first_none. now apply (path_or_slash_lacks "?"). }
  assert (Hparams : contains ";" (String "/" u) = false).
  { rewrite <- Hu. now apply (path_or_slash_lacks ";"). }
  remember (host ++ dir_path dirs ++ "/") as X eqn:HX.
  unfold urlparse.
  destruct Hs as [-> | ->].
  - change ("http" ++ "://" ++ X) with (String "h" ("ttp://" ++ X)).
    rewrite lstrip_c0_keep by reflexivity.
    change (String "h" ("ttp://" ++ X)) with ("http://" ++ X).
    rewrite remove_unsafe_id by (rewrite all_chars_app, Hsafe; reflexivity).
    replace (split_first ":" ("http://" ++ X)) with (Some ("http", "//" ++ X))
      by reflexivity.
    cbv beta iota.
    replace (is_ascii_alpha "h" && all_chars is_scheme_char "http") with true
      by reflexivity.
    replace (lower "http") with "http" by reflexivity.
    cbn [append]. cbv beta iota zeta.
    replace (mem_string "http" uses_params) with true by reflexivity.
    rewrite Hrest, splitnetloc_host, Hbr, Hfrag, Hquery, Hparams by assumption.
    now rewrite Hu.
  - change ("https" ++ "://" ++ X) with (String "h" ("ttps://" ++ X)).
    rewrite lstrip_c0_keep by reflexivity.
    change (String "h" ("ttps://" ++ X)) with ("https://" ++ X).
    rewrite remove_unsafe_id by (rewrite all_chars_app, Hsafe; reflexivity).
    replace (split_first ":" ("https://" ++ X)) with (Some ("https", "//" ++ X))
      by reflexivity.
    cbv beta iota.
    replace (is_ascii_alpha "h" && all_chars is_scheme_char "https") with true
      by reflexivity.
    replace (lower "https") with "https" by reflexivity.
    cbn [append]. cbv beta iota zeta.
    replace (mem_string "https" uses_params) with true by reflexivity.
    rewrite Hrest, splitnetloc_host, Hbr, Hfrag, Hquery, Hparams by assumption.
    now rewrite Hu.
Qed.

Lemma first_char_plain s :
  nonempty s = true -> all_chars is_path_or_slash s = true ->
  starts_with_slash s = false ->
  lstrip_c0 s = s.
Proof.
  destruct s as [|a t]; [discriminate|]. intros _ H Hs.
  apply lstrip_c0_keep. simpl in H. apply andb_prop in H as [Ha _].
  unfold is_path_or_slash in Ha. apply orb_prop in Ha as [Ha | Ha].
  - unfold is_path_char in Ha. repeat (apply andb_prop in Ha as [Ha ?]).
    apply Nat.leb_le in Ha. apply Nat.leb_gt. lia.
  - apply Ascii.eqb_eq in Ha. subst. discriminate.
Qed.

Lemma not_slash_head a t :
  Ascii.eqb a "/" = false -> starts_with_slash (String a t) = false.
Proof.
  intros H. destruct a as [[] [] [] [] [] [] [] []]; try reflexivity; discriminate.
Qed.

Lemma join_head segs :
  plain_segments segs -> segs <> [] ->
  nonempty (join "/" segs) = true /\ starts_with_slash (join "/" segs) = false.
Proof.
  intros H Hne. destruct H as [|d rest Hd _]; [congruence|].
  apply plain_segment_facts in Hd as [Hd1 [Hd2 _]].
  destruct d as [|a t]; [discriminate|].
  assert (Ha : Ascii.eqb a "/" = false).
  { simpl in Hd2. apply andb_prop in Hd2 as [Ha _].
    unfold is_path_char in Ha. repeat (apply andb_prop in Ha as [Ha ?]).
    now apply negb_true_iff. }
  destruct rest; cbn [join append]; split; auto; now apply not_slash_head.
Qed.

Lemma no_two_slashes_head s :
  starts_with_slash s = false ->
  match s with
  | String "/"%char (String "/"%char rest) => splitnetloc rest
  | _ => (EmptyString, s)
  end = (EmptyString, s).
Proof.
  destruct s as [|a t]; auto.
  destruct a as [[] [] [] [] [] [] [] []]; try reflexivity; discriminate.
Qed.

Lemma urlparse_endpoint scheme segs :
  plain_segments segs -> segs <> [] ->
  urlparse (join "/" segs) scheme
  = Some {| p_scheme := scheme; p_netloc := EmptyString; p_path := join "/" segs;
            p_params := EmptyString; p_query := EmptyString; p_fragment := EmptyString |}.
Proof.
  intros Hs Hne.
  pose proof (join_chars segs Hs) as Hc.
  destruct (join_head segs Hs Hne) as [Hn Hh].
  unfold urlparse.
  rewrite first_char_plain by assumption.
  rewrite remove_unsafe_id by (revert Hc; apply all_chars_impl, path_or_slash_safe).
  rewrite (split_first_none ":") by (now apply (path_or_slash_lacks ":")).
  rewrite no_two_slashes_head by assumption. cbn [contains orb].
  rewrite (split_first_none "#") by (now apply (path_or_slash_lacks "#")).
  rewrite (split_first_none "?") by (now apply (path_or_slash_lacks "?")).
  rewrite (path_or_slash_lacks ";" (join "/" segs)), andb_false_r by auto.
  reflexivity.
Qed.

Lemma plain_segments_nonempty segs :
  plain_segments segs -> Forall (fun s => nonempty s = true) segs.
Proof.
  intros H. eapply Forall_impl; [|exact H].
  intros s Hs. now apply plain_segment_facts in Hs.
Qed.

Lemma plain_segments_no_dots segs :
  plain_segments segs ->
  Forall (fun s => String.eqb s "." = false /\ String.eqb s ".." = false) segs.
Proof.
  intros H. eapply Forall_impl; [|exact H].
  intros s Hs. now apply plain_segment_facts in Hs.
Qed.

Lemma last_plain segs :
  plain_segments segs -> segs <> [] ->
  plain_segment (last segs EmptyString) = true.
Proof.
  intros H Hne. induction H as [|d rest Hd _ IH]; [congruence|].
  destruct rest; auto. apply IH. discriminate.
Qed.

Lemma last_app_cons {A} (l : list A) (x : A) (m : list A) (d : A) :
  last (l ++ x :: m) d = last (x :: m) d.
Proof.
  induction l as [|a l IH]; auto.
  simpl app. rewrite <- IH. simpl. destruct (l ++ x :: m)%list eqn:E; auto.
  destruct l; discriminate.
Qed.

Lemma urllib_urljoin_plain scheme host dirs segs :
  web_scheme scheme -> plain_host host = true ->
  plain_segments dirs -> plain_segments segs ->
  urllib_urljoin (scheme ++ "://" ++ host ++ dir_path dirs ++ "/") (join "/" segs)
  = Some (scheme ++ "://" ++ host ++ dir_path dirs ++ "/" ++ join "/" segs).
Proof.
  intros Hs Hh Hd Hsegs.
  assert (Hbase : nonempty (scheme ++ "://" ++ host ++ dir_path dirs ++ "/") = true)
    by (destruct Hs as [-> | ->]; reflexivity).
  unfold urllib_urljoin. rewrite Hbase. cbn [negb].
  destruct segs as [|seg segs'].
  { cbn [join nonempty negb]. now rewrite append_empty. }
  assert (Hne : seg :: segs' <> []) by discriminate.
  remember (seg :: segs') as segs eqn:Hsegs_eq. clear Hsegs_eq.
  destruct (join_head segs Hsegs Hne) as [Hn Hhead].
  rewrite Hn. cbn [negb].
  rewrite urlparse_base, urlparse_endpoint by assumption.
  cbn [p_scheme p_netloc p_path p_params p_query p_fragment nonempty negb andb].
  rewrite String.eqb_refl.
  replace (mem_string scheme uses_relative) with true
    by (destruct Hs as [-> | ->]; reflexivity).
  replace (mem_string scheme uses_netloc) with true
    by (destruct Hs as [-> | ->]; reflexivity).
  cbn [negb orb andb]. rewrite Hn. cbn [negb andb].
  rewrite Hhead.
  rewrite split_on_dir_path, split_on_join by assumption.
  replace (nonempty (last (EmptyString :: dirs ++ [EmptyString]) EmptyString)) with false.
  2: { change (EmptyString :: dirs ++ [EmptyString])%list
         with ((EmptyString :: dirs) ++ [EmptyString])%list.
       now rewrite last_app_cons. }
  assert (Hsegments :
            filter_middle ((EmptyString :: dirs ++ [EmptyString]) ++ segs)
            = (EmptyString :: dirs ++ segs)%list).
  { simpl. f_equal. rewrite <- app_assoc. simpl.
    apply filter_inner_app; auto using plain_segments_nonempty. }
  rewrite Hsegments.
  assert (Hlast : last (EmptyString :: dirs ++ segs) EmptyString = last segs EmptyString).
  { destruct segs as [|x m]; [congruence|].
    change (EmptyString :: dirs ++ x :: m)%list with ((EmptyString :: dirs) ++ x :: m)%list.
    apply last_app_cons. }
  rewrite Hlast.
  pose proof (last_plain segs Hsegs Hne) as Hl.
  apply plain_segment_facts in Hl as [_ [_ [Hl1 Hl2]]].
  rewrite Hl1, Hl2. cbn [orb].
  rewrite resolve_dots_plain.
  2: { constructor; [split; reflexivity|].
       apply Forall_app. split; now apply plain_segments_no_dots. }
  cbn [rev app].
  assert (Hds : (dirs ++ segs)%list <> []) by (destruct dirs, segs; simpl; congruence).
  rewrite join_dir_path by assumption.
  rewrite dir_path_app, (dir_path_join segs) by assumption.
  remember (join "/" segs) as E.
  assert (Hpath : exists t, dir_path dirs ++ "/" ++ E = String "/" t).
  { destruct dirs; simpl; eexists; reflexivity. }
  destruct Hpath as [t Ht]. rewrite Ht.
  unfold plain_host in Hh. apply andb_prop in Hh as [Hhn _].
  unfold urlunparse.
  cbn [p_scheme p_netloc p_path p_params p_query p_fragment nonempty
       starts_with_slash negb andb orb].
  rewrite Hhn. cbn [orb andb negb].
  replace (nonempty scheme) with true by (destruct Hs as [-> | ->]; reflexivity).
  rewrite <- Ht.
  destruct Hs as [-> | ->]; reflexivity.
Qed.

(** ** Dictionaries *)

Lemma dict_get_set_same (d : dict) (k : string) (v : pyval) :
  dict_get (dict_set d k v) k = Some v.
Proof.
  induction d as [|[k' v'] rest IH]; simpl.
  - now rewrite String.eqb_refl.
  - destruct (String.eqb k' k) eqn:E; simpl; rewrite E; auto.
Qed.

Lemma dict_get_set_other (d : dict) (k k' : string) (v : pyval) :
  k' <> k -> dict_get (dict_set d k' v) k = dict_get d k.
Proof.
  intros Hne.
  induction d as [|[k0 v0] rest IH]; simpl.
  - destruct (String.eqb k' k) eqn:E; auto.
    apply String.eqb_eq in E; contradiction.
  - destruct (String.eqb k0 k') eqn:E0; simpl.
    + apply String.eqb_eq in E0; subst k0.
      destruct (String.eqb k' k) eqn:E; auto.
      apply String.eqb_eq in E; contradiction.
    + now rewrite IH.
Qed.

(** ** The pipeline, step by step *)

Ltac run_pipeline :=
  unfold _request, _handle_error, session_request, Response_json, py_get,
    try_except, bind, when, print, ret, raise;
  repeat (simpl;
    match goal with
    | |- context [match ?x with _ => _ end] =>
        lazymatch x with
        | context [match _ with _ => _ end] => fail
        | _ => destruct x eqn:?
        end
    end); simpl.

Section PipelineFacts.

Variable env : Env.

(** One call of [_request] sends one request; its result is a function of
    the network's answer to that request, and only [debug] prints. *)
Lemma _request_run self m e d p w :
  let request := built_request env self m e d p in
  let answer := network env request in
  _request env self m e d p w
  = (envelope_of env answer,
     {| stdout := (stdout w ++ debug_trace self request answer)%list;
        wire := (wire w ++ [request])%list |}).
Proof.
  intros request answer.
  pose proof (strftime_iso_truthy (gmtime env)) as Hnow.
  subst answer request.
  unfold envelope_of, error_of_response, debug_trace, error_envelope, network_error,
    APIResponse_init, get_or, get_or_None, no_get, http_code, built_request.
  run_pipeline;
    unfold new_APIError, now_strftime, APIError_init, py_or;
    rewrite <- ?app_assoc, ?app_nil_r, ?Hnow;
    repeat match goal with H : truthy _ = _ |- _ => rewrite H end;
    try reflexivity; try discriminate; try congruence.
Qed.

Lemma _request_wire self m e d p w :
  wire (snd (_request env self m e d p w))
  = (wire w ++ [built_request env self m e d p])%list.
Proof. now rewrite _request_run. Qed.


Lemma _request_outcome self m e d p w :
  fst (_request env self m e d p w)
  = envelope_of env (network env (built_request env self m e d p)).
Proof. now rewrite _request_run. Qed.

Lemma call_wire self op w :
  wire (snd (call env self op w)) = (wire w ++ [operation_request env self op])%list.
Proof. destruct op; apply _request_wire. Qed.


Lemma call_outcome self op w :
  fst (call env self op w) = envelope_of env (network env (operation_request env self op)).
Proof. destruct op; apply _request_outcome. Qed.

End PipelineFacts.

(** ** Successful responses *)

(** C1, as amended.  For every response with status below 400 whose body
    decodes to [decoded]: when [decoded] is a mapping, with or without a
    [data] key, the envelope takes [data], [count], [limit], [offset] and
    [has_next] from it, each absent when its key is absent; when [decoded]
    is anything else the envelope holds it whole as [data], with no
    pagination field.  The error is absent in both cases.  This is the
    envelope of the specification whenever the mapping has a [data] key or
    the body is not a mapping. *)
Theorem success_envelope_by_shape env self m e d p w response decoded :
  network env (built_request env self m e d p) = Responded response ->
  status_code response < 400 ->
  body response = JsonBody decoded ->
  fst (_request env self m e d p w)
  = Return match decoded with
           | PDict entries =>
               {| data := get_or_None entries "data";
                  count := get_or_None entries "count";
                  limit := get_or_None entries "limit";
                  offset := get_or_None entries "offset";
                  has_next := get_or_None entries "has_next";
                  error := None |}
           | _ =>
               {| data := decoded; count := PNone; limit := PNone; offset := PNone;
                  has_next := PNone; error := None |}
           end
  /\ ((isinstance_dict decoded = false
       \/ exists entries, decoded = PDict entries /\ has_key entries "data" = true) ->
      fst (_request env self m e d p w) = Return (spec_success_envelope decoded)).
Proof.
  intros Hnet Hstatus Hbody.
  rewrite _request_outcome, Hnet. unfold envelope_of.
  replace (400 <=? status_code response) with false by (symmetry; apply Z.leb_gt; lia).
  rewrite Hbody. split.
  - destruct decoded; reflexivity.
  - intros [Hshape | [entries [-> Hkey]]].
    + destruct decoded; try reflexivity; discriminate.
    + unfold spec_success_envelope, has_key, get_or_None in *.
      destruct (dict_get entries "data"); [reflexivity | discriminate].
Qed.

Lemma success_envelope_by_shape_witness :
  fst (_request (server_says 200 "OK"
                   (JsonBody (PDict [("data", PList [PInt 1]); ("count", PInt 1)])))
                (local_client false) "GET" "/rest/v1/users" None None fresh)
  = Return {| data := PList [PInt 1]; count := PInt 1; limit := PNone; offset := PNone;
              has_next := PNone; error := None |}.
Proof.
  exact (proj1 (success_envelope_by_shape
                  (server_says 200 "OK"
                     (JsonBody (PDict [("data", PList [PInt 1]); ("count", PInt 1)])))
                  (local_client false) "GET" "/rest/v1/users" None None fresh
                  _ _ eq_refl ltac:(simpl; lia) eq_refl)).
Defined.

(** C1 as written fails on a mapping without a [data] key: for the body
    [{"count": 3}] the envelope has no [data] and a [count] of 3, where the
    specification wraps the whole mapping and leaves [count] out. *)
Lemma mapping_without_data_not_wrapped :
  let answer := PDict [("count", PInt 3)] in
  let run := fst (health (server_says 200 "OK" (JsonBody answer))
                         (local_client false) fresh) in
  run = Return {| data := PNone; count := PInt 3; limit := PNone; offset := PNone;
                  has_next := PNone; error := None |}
  /\ run <> Return (spec_success_envelope answer).
Proof. split; [reflexivity | discriminate]. Qed.

(** ** Data and error *)

(** C2, as amended.  In every envelope that a public operation returns,
    [data] and [error] are never both populated: an envelope with an error
    has no data and no pagination field, and an envelope without an error
    comes from a response with status below 400 and a decodable body (its
    [data] may still be absent). *)
Theorem data_and_error_never_both env self op w envelope :
  fst (call env self op w) = Return envelope ->
  data_populated envelope && error_populated envelope = false
  /\ (error_populated envelope = true -> data envelope = PNone /\ no_pagination envelope)
  /\ (error_populated envelope = false ->
      exists response decoded,
        network env (operation_request env self op) = Responded response
        /\ status_code response < 400
        /\ body response = JsonBody decoded).
Proof.
  rewrite call_outcome. unfold envelope_of, error_envelope.
  destruct (network env (operation_request env self op)) as [response | description].
  - destruct (400 <=? status_code response) eqn:Hs.
    + destruct (error_of_response env response); intros H; inversion H; subst.
      repeat split; try reflexivity; discriminate.
    + apply Z.leb_gt in Hs.
      destruct (body response) as [decoded | description] eqn:Hb.
      * assert (Hdone : forall r, error r = None ->
                  data_populated r && error_populated r = false
                  /\ (error_populated r = true -> data r = PNone /\ no_pagination r)
                  /\ (error_populated r = false ->
                      exists response0 decoded0,
                        Responded response = Responded response0
                        /\ status_code response0 < 400
                        /\ body response0 = JsonBody decoded0)).
        { intros r Hr. unfold error_populated. rewrite Hr.
          repeat split; try discriminate.
          - apply andb_false_r.
          - intros _. exists response, decoded. auto. }
        destruct decoded; intros H; inversion H; subst; apply Hdone; reflexivity.
      * intros H; inversion H; subst.
        repeat split; try reflexivity; discriminate.
  - intros H; inversion H; subst.
    repeat split; try reflexivity; discriminate.
Qed.

Lemma data_and_error_never_both_witness :
  data_populated (error_envelope (network_error unreachable "Connection refused"))
  && error_populated (error_envelope (network_error unreachable "Connection refused"))
  = false.
Proof.
  exact (proj1 (data_and_error_never_both unreachable (local_client false) Ping fresh
                  (error_envelope (network_error unreachable "Connection refused"))
                  eq_refl)).
Defined.

(** C2 as written fails twice over.  A response [200] with body [{}] gives
    an envelope in which neither [data] nor [error] is populated, and the
    constructor itself accepts an envelope in which both are. *)
Lemma neither_or_both_populated :
  (exists envelope,
      fst (health (server_says 200 "OK" (JsonBody (PDict []))) (local_client false) fresh)
      = Return envelope
      /\ data_populated envelope = false
      /\ error_populated envelope = false)
  /\ (let both := APIResponse_init (PInt 1) PNone PNone PNone PNone
                    (Some (network_error unreachable "Connection refused")) in
      data_populated both = true /\ error_populated both = true).
Proof.
  split.
  - eexists. split; [reflexivity | split; reflexivity].
  - split; reflexivity.
Qed.

(** ** Error responses *)

(** A body that decodes to something other than a mapping has no [get]:
    with a status of 400 or more the [AttributeError] is caught by neither
    [except] clause and leaves the operation. *)
Lemma non_mapping_error_body_raises env self op w response decoded :
  network env (operation_request env self op) = Responded response ->
  400 <= status_code response ->
  body response = JsonBody decoded ->
  isinstance_dict decoded = false ->
  fst (call env self op w) = Raise no_get.
Proof.
  intros Hnet Hstatus Hbody Hshape.
  rewrite call_outcome, Hnet. unfold envelope_of, error_of_response.
  replace (400 <=? status_code response) with true by (symmetry; apply Z.leb_le; lia).
  rewrite Hbody. destruct decoded; try reflexivity; discriminate.
Qed.

(** C3 at its failing input: status 500 with the JSON body [[]] makes
    [health] raise [AttributeError] where an error envelope is promised;
    so does the body [{"error": "down"}], whose [error] is not a mapping. *)
Theorem error_status_with_list_body_raises :
  fst (health (server_says 500 "Internal Server Error" (JsonBody (PList [])))
              (local_client false) fresh)
  = Raise (AttributeError "object has no attribute 'get'")
  /\ fst (health (server_says 500 "Internal Server Error"
                    (JsonBody (PDict [("error", PStr "down")])))
                 (local_client false) fresh)
     = Raise (AttributeError "object has no attribute 'get'").
Proof. split; reflexivity. Qed.

(** C4, as amended.  For every response with status 400 or more: when the
    body decodes to a mapping whose [error] is a mapping, the error takes
    [code], [message] and [details] from it, an absent one falling back to
    [http_<status>], the reason phrase and nothing; it takes [timestamp]
    from it when that is present and truthy, and the current time
    otherwise.  When the body does not decode at all, the error is
    [http_<status>], the reason phrase, no details and the current time. *)
Theorem error_info_from_body env self m e d p w response :
  network env (built_request env self m e d p) = Responded response ->
  400 <= status_code response ->
  (forall entries info,
      body response = JsonBody (PDict entries) ->
      dict_get entries "error" = Some (PDict info) ->
      fst (_request env self m e d p w)
      = Return (error_envelope
                  {| code := get_or info "code"
                               (PStr ("http_" ++ str_int (status_code response)));
                     message := get_or info "message" (PStr (reason response));
                     details := get_or_None info "details";
                     timestamp := py_or (get_or_None info "timestamp")
                                        (PStr (utcnow_isoformat env)) |}))
  /\ (forall description,
         body response = Unparsable description ->
         fst (_request env self m e d p w)
         = Return (error_envelope
                     {| code := PStr ("http_" ++ str_int (status_code response));
                        message := PStr (reason response);
                        details := PNone;
                        timestamp := PStr (strftime_iso (gmtime env)) |})).
Proof.
  intros Hnet Hstatus.
  rewrite _request_outcome, Hnet. unfold envelope_of, error_of_response.
  replace (400 <=? status_code response) with true by (symmetry; apply Z.leb_le; lia).
  split.
  - intros entries info Hbody Herr. rewrite Hbody.
    unfold get_or at 1. rewrite Herr. reflexivity.
  - intros description Hbody. rewrite Hbody.
    unfold APIError_init, py_or. now rewrite strftime_iso_truthy.
Qed.

(** The scenario of C4: status 404 with body
    [{"error": {"message": "not found"}}]. *)
Lemma error_info_from_body_witness :
  fst (_request (server_says 404 "Not Found"
                   (JsonBody (PDict [("error", PDict [("message", PStr "not found")])])))
                (local_client false) "GET" "/rest/v1/users/7" None None fresh)
  = Return (error_envelope
              {| code := PStr "http_404";
                 message := PStr "not found";
                 details := PNone;
                 timestamp := PStr "2024-03-09T12:00:05.000321" |}).
Proof.
  exact (proj1 (error_info_from_body
                  (server_says 404 "Not Found"
                     (JsonBody (PDict [("error", PDict [("message", PStr "not found")])])))
                  (local_client false) "GET" "/rest/v1/users/7" None None fresh _
                  eq_refl ltac:(simpl; lia))
               _ _ eq_refl eq_refl).
Defined.

(** C4 as written fails on a timestamp that is present but empty: for a
    body whose [error] mapping has the empty string as [timestamp], the
    error carries the current time, not the mapping's timestamp. *)
Lemma empty_timestamp_replaced :
  let answer := {| status_code := 500; reason := "Internal Server Error";
                   body := JsonBody (PDict [("error",
                                             PDict [("timestamp", PStr EmptyString)])]) |} in
  let env := env_with (fun _ => Responded answer) in
  let run := fst (_handle_error env answer fresh) in
  run = Return {| code := PStr "http_500";
                  message := PStr "Internal Server Error";
                  details := PNone;
                  timestamp := PStr "2024-03-09T12:00:05.000321" |}
  /\ run <> Return (spec_error_info env answer [("timestamp", PStr EmptyString)]).
Proof. split; [reflexivity | discriminate]. Qed.

(** C5.  Whatever the operation, a transport failure gives the envelope
    whose error has code [network_error], the failure's description as
    message and the current time as timestamp, and which has no data. *)
Theorem transport_failure_is_network_error env self op w description :
  network env (operation_request env self op) = TransportFailure description ->
  fst (call env self op w)
  = Return {| data := PNone; count := PNone; limit := PNone; offset := PNone;
              has_next := PNone;
              error := Some {| code := PStr "network_error";
                               message := PStr description;
                               details := PNone;
                               timestamp := PStr (strftime_iso (gmtime env)) |} |}.
Proof. intros Hnet. now rewrite call_outcome, Hnet. Qed.

Lemma transport_failure_is_network_error_witness :
  fst (call unreachable (local_client true) (Insert "users" (PDict [("name", PStr "a")]) None)
            fresh)
  = Return {| data := PNone; count := PNone; limit := PNone; offset := PNone;
              has_next := PNone;
              error := Some {| code := PStr "network_error";
                               message := PStr "Connection refused";
                               details := PNone;
                               timestamp := PStr "2024-03-09T12:00:05Z" |} |}.
Proof.
  exact (transport_failure_is_network_error unreachable (local_client true)
           (Insert "users" (PDict [("name", PStr "a")]) None) fresh
           "Connection refused" eq_refl).
Defined.

(** ** Query strings *)

Lemma fold_left_ext {A B : Type} (f g : A -> B -> A) (l : list B) (a : A) :
  (forall x y, f x y = g x y) -> fold_left f l a = fold_left g l a.
Proof.
  intros H. revert a. induction l as [|b l IH]; intros a; simpl; auto.
  now rewrite H, IH.
Qed.

(** The loop body that the three builders spell out is [add_condition]. *)
Lemma loop_body_is_add_condition (params : dict) (kv : string * pyval) :
  (let key := fst kv in
   let value := snd kv in
   if isinstance_dict_or_list value
   then dict_set params key (PStr (json_dumps value))
   else dict_set params key (PStr (py_str value)))
  = add_condition params kv.
Proof.
  unfold add_condition, filter_text. simpl.
  now destruct (isinstance_dict_or_list (snd kv)).
Qed.

Lemma conditions_keep_other (conditions params : dict) (key : string) :
  ~ In key (map fst conditions) ->
  dict_get (fold_left add_condition conditions params) key = dict_get params key.
Proof.
  revert params. induction conditions as [|[k v] rest IH]; intros params Hnot; simpl; auto.
  rewrite IH by (intros Hin; apply Hnot; now right).
  unfold add_condition; simpl.
  apply dict_get_set_other. intros ->. apply Hnot. now left.
Qed.

Lemma conditions_set (conditions params : dict) (key : string) (value : pyval) :
  NoDup (map fst conditions) ->
  In (key, value) conditions ->
  dict_get (fold_left add_condition conditions params) key = Some (filter_text value).
Proof.
  revert params. induction conditions as [|[k v] rest IH]; intros params Hnodup Hin.
  - contradiction.
  - simpl in Hnodup. inversion Hnodup as [|? ? Hfresh Hrest]; subst.
    destruct Hin as [Heq | Hin].
    + inversion Heq; subst. simpl.
      rewrite conditions_keep_other by assumption.
      unfold add_condition; simpl.
      apply dict_get_set_same.
    + simpl. now apply IH.
Qed.

Lemma query_params_unfold (o : QueryOptions) :
  query_params (Some o)
  = let params :=
      if list_truthy (select o)
      then dict_set [] "select" (PStr (join "," (select o))) else [] in
    let params :=
      if list_truthy (where_ o)
      then fold_left add_condition (where_ o) params else params in
    let params :=
      if truthy (py_of_str (order o))
      then dict_set params "order" (py_of_str (order o)) else params in
    let params :=
      if truthy (py_of_int (q_limit o))
      then dict_set params "limit" (py_of_int (q_limit o)) else params in
    if truthy (py_of_int (q_offset o))
    then dict_set params "offset" (py_of_int (q_offset o)) else params.
Proof.
  unfold query_params. cbv zeta.
  now rewrite (fold_left_ext _ add_condition _ _ loop_body_is_add_condition).
Qed.

Lemma update_params_unfold (options : option UpdateOptions) (conditions : dict) :
  update_params options conditions
  = let params := fold_left add_condition conditions [] in
    match options with
    | Some o =>
        if list_truthy (upd_returning o)
        then dict_set params "returning" (PStr (join "," (upd_returning o)))
        else params
    | None => params
    end.
Proof.
  unfold update_params. cbv zeta.
  now rewrite (fold_left_ext _ add_condition _ _ loop_body_is_add_condition).
Qed.

Lemma delete_params_unfold (options : option UpdateOptions) (conditions : dict) :
  delete_params options conditions
  = let params := fold_left add_condition conditions [] in
    match options with
    | Some o =>
        if list_truthy (upd_returning o)
        then dict_set params "returning" (PStr (join "," (upd_returning o)))
        else params
    | None => params
    end.
Proof.
  unfold delete_params. cbv zeta.
  now rewrite (fold_left_ext _ add_condition _ _ loop_body_is_add_condition).
Qed.

(** C7, as amended.  Take a mapping of conditions (distinct keys) and one
    of its entries.  In [query], [update] and [delete] alike the entry
    reaches the parameters as [json.dumps] of its value when the value is
    a dict or a list, and as [str] of its value otherwise, a tuple
    included.  The one exception is an entry named like a parameter that
    the builder writes after the loop, when that parameter is written:
    [order], [limit] or [offset] in [query] when the option is truthy,
    [returning] in the other two when columns are asked back.  The texts
    are those of Python: [str] gives a string as it is, [None], [True],
    [False], the decimal digits, the float's own text and the tuple in
    parentheses; [json.dumps] puts [", "] and [": "] between items and
    escapes quotes, backslashes and everything outside printable ASCII. *)
Theorem filters_serialized_by_type (conditions : dict) (key : string) (value : pyval) :
  NoDup (map fst conditions) ->
  In (key, value) conditions ->
  let text := if isinstance_dict_or_list value then json_dumps value else py_str value in
  ((forall o, where_ o = conditions ->
              (key = "order" -> truthy (py_of_str (order o)) = false) ->
              (key = "limit" -> truthy (py_of_int (q_limit o)) = false) ->
              (key = "offset" -> truthy (py_of_int (q_offset o)) = false) ->
              dict_get (query_params (Some o)) key = Some (PStr text))
   /\ (forall options, (key = "returning" -> returning_columns options = []) ->
                       dict_get (update_params options conditions) key = Some (PStr text))
   /\ (forall options, (key = "returning" -> returning_columns options = []) ->
                       dict_get (delete_params options conditions) key = Some (PStr text)))
  /\ ((forall s, py_str (PStr s) = s)
      /\ py_str PNone = "None"
      /\ py_str (PBool true) = "True"
      /\ py_str (PBool false) = "False"
      /\ py_str (PInt 18) = "18"
      /\ py_str (PInt (-5)) = "-5"
      /\ (forall r, py_str (PFloat r) = r)
      /\ py_str (PTuple [PInt 1; PStr "a"]) = "(1, 'a')"
      /\ py_str (PTuple [PInt 1]) = "(1,)")
  /\ (json_dumps (PDict [("gte", PInt 18); ("lt", PInt 65)])
      = "{" ++ quoted "gte" ++ ": 18, " ++ quoted "lt" ++ ": 65}"
      /\ json_dumps (PList [PStr ("a" ++ String dquote ("b" ++ String backslash
                                      ("c" ++ String "010" (String "233" EmptyString))));
                            PNone; PBool true; PBool false; PFloat "1.5"; PTuple [PInt 1]])
         = "[" ++ quoted ("a" ++ String backslash (String dquote ("b" ++ String backslash
                            (String backslash ("c" ++ String backslash ("n" ++
                               String backslash "u00e9"))))))
               ++ ", null, true, false, 1.5, [1]]").
Proof.
  intros Hnodup Hin. cbv zeta.
  change (PStr (if isinstance_dict_or_list value then json_dumps value else py_str value))
    with (filter_text value).
  assert (Hret : forall options, (key = "returning" -> returning_columns options = []) ->
            dict_get
              (match options with
               | Some o =>
                   if list_truthy (upd_returning o)
                   then dict_set (fold_left add_condition conditions [])
                                 "returning" (PStr (join "," (upd_returning o)))
                   else fold_left add_condition conditions []
               | None => fold_left add_condition conditions []
               end) key = Some (filter_text value)).
  { intros options Hkey.
    destruct options as [o|]; [|now apply conditions_set].
    destruct (list_truthy (upd_returning o)) eqn:Hcols; [|now apply conditions_set].
    rewrite dict_get_set_other; [now apply conditions_set|].
    intros Heq. symmetry in Heq. specialize (Hkey Heq). simpl in Hkey.
    rewrite Hkey in Hcols. discriminate. }
  split; [split; [|split] | split; [repeat split; reflexivity | split; reflexivity]].
  - intros o Hwhere Ho Hl Hoff. rewrite query_params_unfold. cbv zeta. rewrite Hwhere.
    assert (Hloop : forall params,
               dict_get (if list_truthy conditions
                         then fold_left add_condition conditions params else params) key
               = Some (filter_text value)).
    { intros params. destruct conditions; [contradiction|]. simpl list_truthy. cbv iota.
      now apply conditions_set. }
    assert (Hskip : forall name v params,
               (key = name -> truthy v = false) ->
               dict_get params key = Some (filter_text value) ->
               dict_get (if truthy v then dict_set params name v else params) key
               = Some (filter_text value)).
    { intros name v params Hname Hparams.
      destruct (truthy v) eqn:Hv; auto.
      rewrite dict_get_set_other; auto.
      intros Heq. symmetry in Heq. specialize (Hname Heq). discriminate. }
    apply Hskip; [auto|]. apply Hskip; [auto|]. apply Hskip; [auto|]. apply Hloop.
  - intros options Hkey. rewrite update_params_unfold. now apply Hret.
  - intros options Hkey. rewrite delete_params_unfold. now apply Hret.
Qed.

Lemma filters_serialized_by_type_witness :
  dict_get (update_params (Some (UpdateOptions_init None))
                          [("age", PDict [("gte", PInt 18)]); ("returning", PBool true)])
           "returning"
  = Some (PStr "True").
Proof.
  refine (proj1 (proj2 (proj1
            (filters_serialized_by_type
               [("age", PDict [("gte", PInt 18)]); ("returning", PBool true)]
               "returning" (PBool true) _ _)))
            (Some (UpdateOptions_init None)) _).
  - repeat constructor; simpl; intuition discriminate.
  - simpl; auto.
  - reflexivity.
Defined.

(** C7 as written fails on a sequence that is not a list: the tuple
    [(18, 65)] is sent in its string form [(18, 65)], not as the JSON
    text [[18, 65]], by [query], [update] and [delete] alike. *)
Lemma tuple_filter_sent_as_str :
  let range := PTuple [PInt 18; PInt 65] in
  let sent := Some (PStr "(18, 65)") in
  dict_get (query_params (Some (QueryOptions_init None (Some [("age", range)])
                                                  None None None None None None))) "age"
  = sent
  /\ dict_get (update_params None [("age", range)]) "age" = sent
  /\ dict_get (delete_params None [("age", range)]) "age" = sent
  /\ json_dumps range = "[18, 65]"
  /\ sent <> Some (PStr (json_dumps range)).
Proof. repeat split; try reflexivity. discriminate. Qed.

(** C6, as amended.  [query("users", adults)] sends one request: [GET] on
    the join of the base URL with [rest/v1/users], no body, and the
    parameters [select=id,name], [age={"gte": 18}], [limit=10] in this
    order, where the text of [age] is [json.dumps] of the condition, with a
    space after the colon. *)
Theorem adults_query_request env self w :
  wire (snd (query env self "users" (Some adults) w))
  = (wire w
     ++ [{| req_method := "GET";
            req_url := urljoin env (url (config self) ++ "/") "rest/v1/users";
            req_json := None;
            req_params := Some [("select", PStr "id,name");
                                ("age", PStr ("{" ++ quoted "gte" ++ ": 18}"));
                                ("limit", PInt 10)];
            req_headers := session_headers (session self) |}])%list
  /\ json_dumps (PDict [("gte", PInt 18)]) = "{" ++ quoted "gte" ++ ": 18}".
Proof.
  split; [|reflexivity].
  unfold query. now rewrite _request_wire.
Qed.

(** C6 as written fails on the text of [age]: the request carries
    [{"gte": 18}], not [{"gte":18}]. *)
Lemma adults_age_has_a_space :
  let sent := map req_params
                  (wire (snd (query unreachable (local_client false) "users"
                                    (Some adults) fresh))) in
  sent = [Some adults_params] /\ sent <> [Some adults_params_written].
Proof. split; [reflexivity | discriminate]. Qed.

(** ** Request URL *)

Lemma env_with_backed_by_urllib net : backed_by_urllib (env_with net).
Proof.
  intros base reference joined H. simpl. unfold urllib_urljoin_total. now rewrite H.
Qed.

(** C8, as amended.  Whether or not the base URL ends with a slash and
    whether or not the endpoint starts with one, the request URL is the
    same: [urljoin] of the base without its trailing slashes followed by
    one slash, and of the endpoint without its leading slashes; nothing
    but slashes is taken off either.  With the library's [urljoin], when
    the base is [http] or [https] with a host and a path of plain
    segments and the endpoint is a path of plain segments, that URL is
    the base, one slash and the endpoint. *)
Theorem request_url_of_stripped_operands env key millis extra dbg base endpoint :
  let client b := MetaBaseClient_init (MetaBaseConfig_init b key millis extra dbg) in
  let joined := urljoin env (rstrip slash base ++ "/") (lstrip slash endpoint) in
  (request_url env (client base) endpoint = joined
   /\ request_url env (client (base ++ "/")) endpoint = joined
   /\ request_url env (client base) ("/" ++ endpoint) = joined
   /\ request_url env (client (base ++ "/")) ("/" ++ endpoint) = joined)
  /\ ((exists n, base = rstrip slash base ++ slashes n)
      /\ ends_with slash (rstrip slash base) = false
      /\ (exists k, endpoint = slashes k ++ lstrip slash endpoint)
      /\ starts_with slash (lstrip slash endpoint) = false)
  /\ (backed_by_urllib env ->
      forall scheme host dirs segs,
        web_scheme scheme -> plain_host host = true ->
        plain_segments dirs -> plain_segments segs ->
        rstrip slash base = scheme ++ "://" ++ host ++ dir_path dirs ->
        lstrip slash endpoint = join "/" segs ->
        joined = rstrip slash base ++ "/" ++ lstrip slash endpoint).
Proof.
  cbv zeta. split; [|split].
  - unfold request_url. simpl.
    change (base ++ "/") with (base ++ String slash EmptyString).
    rewrite rstrip_snoc. repeat split; reflexivity.
  - repeat split;
      auto using rstrip_decompose, lstrip_decompose, rstrip_not_ends_with,
                 lstrip_not_starts_with.
  - intros Hlib scheme host dirs segs Hscheme Hhost Hdirs Hsegs Hbase Hend.
    apply Hlib. rewrite Hbase, Hend.
    replace ((scheme ++ "://" ++ host ++ dir_path dirs) ++ "/")
      with (scheme ++ "://" ++ host ++ dir_path dirs ++ "/")
      by (now rewrite !append_assoc).
    rewrite urllib_urljoin_plain by assumption.
    now rewrite !append_assoc.
Qed.

Lemma request_url_of_stripped_operands_witness :
  request_url unreachable
              (MetaBaseClient_init
                 (MetaBaseConfig_init "http://localhost:7609/api//" "secret" 30000 None false))
              "/rest/v1/users"
  = "http://localhost:7609/api/rest/v1/users".
Proof.
  refine (eq_trans (proj1 (proj1 (request_url_of_stripped_operands
                                    unreachable "secret" 30000 None false
                                    "http://localhost:7609/api//" "/rest/v1/users")))
                   (proj2 (proj2 (request_url_of_stripped_operands
                                    unreachable "secret" 30000 None false
                                    "http://localhost:7609/api//" "/rest/v1/users"))
                          (env_with_backed_by_urllib _)
                          "http" "localhost:7609" ["api"] ["rest"; "v1"; "users"]
                          _ eq_refl _ _ eq_refl eq_refl)).
  - left; reflexivity.
  - repeat constructor.
  - repeat constructor.
Defined.

(** C8 as written fails on a base without a scheme that [urljoin] knows:
    for the base [localhost:7609] the request URL of [/rest/health] is
    [rest/health], in all four combinations, and not the base, a slash
    and the endpoint. *)
Lemma scheme_less_base_is_dropped :
  let client b := MetaBaseClient_init (MetaBaseConfig_init b "secret" 30000 None false) in
  urllib_urljoin "localhost:7609/" "rest/health" = Some "rest/health"
  /\ request_url unreachable (client "localhost:7609") "rest/health" = "rest/health"
  /\ request_url unreachable (client "localhost:7609/") "rest/health" = "rest/health"
  /\ request_url unreachable (client "localhost:7609") "/rest/health" = "rest/health"
  /\ request_url unreachable (client "localhost:7609/") "/rest/health" = "rest/health"
  /\ request_url unreachable (client "localhost:7609") "/rest/health"
     <> "localhost:7609/rest/health".
Proof. repeat split; try reflexivity. discriminate. Qed.

(** ** Debug mode *)


(** ** Falsy query options *)

Lemma dict_get_None_keys (d : dict) (key : string) :
  dict_get d key = None -> ~ In key (map fst d).
Proof.
  induction d as [|[k v] rest IH]; simpl; auto.
  destruct (String.eqb k key) eqn:E; [discriminate|].
  intros H [Hk | Hin]; [|now apply IH].
  subst. rewrite String.eqb_refl in E. discriminate.
Qed.

Lemma has_key_conditions (conditions params : dict) (key : string) :
  has_key conditions key = false ->
  has_key (if list_truthy conditions
           then fold_left add_condition conditions params else params) key
  = has_key params key.
Proof.
  unfold has_key. intros H.
  destruct (list_truthy conditions); auto.
  rewrite conditions_keep_other; auto.
  apply dict_get_None_keys. now destruct (dict_get conditions key).
Qed.

Lemma has_key_set_other (d : dict) (key k : string) (v : pyval) :
  k <> key -> has_key (dict_set d k v) key = has_key d key.
Proof. intros H. unfold has_key. now rewrite dict_get_set_other. Qed.

(** C10.  A [limit] of 0, an [offset] of 0 and an empty [select] build the
    parameters that the unset option builds, and put no parameter of that
    name in the query string (a condition of the same name in [where]
    apart). *)
Theorem falsy_options_left_out sel wh ord lim off j g h :
  let options s l o := Some (QueryOptions_init s wh ord l o j g h) in
  query_params (options sel (Some 0) off) = query_params (options sel None off)
  /\ query_params (options sel lim (Some 0)) = query_params (options sel lim None)
  /\ query_params (options (Some []) lim off) = query_params (options None lim off)
  /\ (has_key (or_empty wh) "limit" = false ->
      has_key (query_params (options sel (Some 0) off)) "limit" = false)
  /\ (has_key (or_empty wh) "offset" = false ->
      has_key (query_params (options sel lim (Some 0))) "offset" = false)
  /\ (has_key (or_empty wh) "select" = false ->
      has_key (query_params (options (Some []) lim off)) "select" = false).
Proof.
  cbv zeta.
  split; [reflexivity|]. split; [reflexivity|]. split; [reflexivity|].
  repeat split; intros Hwh; rewrite query_params_unfold; cbv zeta; simpl;
    repeat match goal with
           | |- context [if ?c then dict_set _ _ _ else _] => destruct c
           end;
    rewrite ?has_key_set_other by discriminate;
    rewrite ?has_key_conditions by assumption;
    rewrite ?has_key_set_other by discriminate;
    try reflexivity;
    destruct (list_truthy (or_empty sel)); reflexivity.
Qed.

Lemma falsy_options_left_out_witness :
  has_key (query_params
             (Some (QueryOptions_init (Some ["id"]) (Some [("age", PInt 18)])
                                      None (Some 0) (Some 20) None None None)))
          "limit"
  = false.
Proof.
  exact (proj1 (proj2 (proj2 (proj2
           (falsy_options_left_out (Some ["id"]) (Some [("age", PInt 18)])
                                   None (Some 0) (Some 20) None None None))))
         eq_refl).
Defined.

(** * Further properties of the client *)

(** ** Requests and paths *)

(** X3.  The table name is put in the path as it is: a query on the table
    [<table>/<id>] without options is the request of [get] on [<table>]
    and [<id>] without a selection. *)
Theorem table_name_not_escaped env self table id w :
  operation_request env self (Query (table ++ "/" ++ str_id id) None)
  = operation_request env self (Get table id None)
  /\ call env self (Query (table ++ "/" ++ str_id id) None) w
     = call env self (Get table id None) w.
Proof. split; reflexivity. Qed.

(** ** Outcomes and the clock *)




(** ** Session headers *)

Lemma ci_matches_set_other (d : dict) (k key : string) (v : pyval) :
  String.eqb (lower k) (lower key) = false ->
  ci_matches (dict_set d k v) key = ci_matches d key.
Proof.
  intros Hk. unfold ci_matches.
  induction d as [|[k0 v0] rest IH]; simpl.
  - now rewrite Hk.
  - destruct (String.eqb k0 k) eqn:E; simpl.
    + apply String.eqb_eq in E. subst k0. now rewrite Hk.
    + now rewrite IH.
Qed.

Lemma ci_matches_update_other (a b : dict) (key : string) :
  ci_matches b key = [] -> ci_matches (dict_update a b) key = ci_matches a key.
Proof.
  unfold dict_update. revert a.
  induction b as [|[k v] rest IH]; intros a Hb; simpl; auto.
  unfold ci_matches in Hb. simpl in Hb.
  destruct (String.eqb (lower k) (lower key)) eqn:E; [discriminate|].
  rewrite IH by exact Hb. now apply ci_matches_set_other.
Qed.

(** Setting [key] in a dict with at most one entry spelled like it up to
    case leaves the new entry as the last of them. *)
Lemma ci_matches_set_same (d : dict) (key : string) (v : pyval) :
  (List.length (ci_matches d key) <= 1)%nat ->
  exists before, ci_matches (dict_set d key v) key = (before ++ [(key, v)])%list.
Proof.
  unfold ci_matches.
  induction d as [|[k0 v0] rest IH]; simpl; intros Hlen.
  - rewrite String.eqb_refl. now exists [].
  - destruct (String.eqb k0 key) eqn:E.
    + apply String.eqb_eq in E. subst k0. simpl. rewrite String.eqb_refl in *.
      simpl in Hlen.
      destruct (filter (fun kv => String.eqb (lower (fst kv)) (lower key)) rest);
        [now exists [] | simpl in Hlen; lia].
    + simpl. destruct (String.eqb (lower k0) (lower key)) eqn:E2.
      * simpl in Hlen.
        destruct (IH ltac:(lia)) as [before Hb]. rewrite Hb.
        now exists ((k0, v0) :: before).
      * now apply IH.
Qed.

(** A lookup in the updated session headers finds the last entry of the
    update that is spelled like the key up to case. *)
Lemma ci_get_set (d : dict) (k key : string) (v : pyval) :
  ci_get (ci_set d k v) key
  = if String.eqb (lower k) (lower key) then Some v else ci_get d key.
Proof.
  induction d as [|[k0 v0] rest IH]; simpl.
  - now destruct (String.eqb (lower k) (lower key)).
  - destruct (String.eqb (lower k0) (lower k)) eqn:E0; simpl.
    + apply String.eqb_eq in E0. rewrite E0.
      now destruct (String.eqb (lower k) (lower key)).
    + rewrite IH.
      destruct (String.eqb (lower k0) (lower key)) eqn:E1; auto.
      destruct (String.eqb (lower k) (lower key)) eqn:E2; auto.
      apply String.eqb_eq in E1, E2. rewrite E1, E2, String.eqb_refl in E0. discriminate.
Qed.

Lemma ci_get_update (a b : dict) (key : string) :
  ci_get (ci_update a b) key
  = match rev (ci_matches b key) with
    | (_, v) :: _ => Some v
    | [] => ci_get a key
    end.
Proof.
  unfold ci_update, ci_matches. revert a.
  induction b as [|[k v] rest IH]; intros a; simpl; auto.
  rewrite IH, ci_get_set.
  destruct (String.eqb (lower k) (lower key)) eqn:E; simpl; auto.
  destruct (rev (filter (fun kv => String.eqb (lower (fst kv)) (lower key)) rest))
    as [|[k1 v1] tail]; reflexivity.
Qed.

Lemma session_headers_lookup (cfg : MetaBaseConfig) (key : string) :
  ci_get (session_headers (session (MetaBaseClient_init cfg))) key
  = match rev (ci_matches
                 (dict_update
                    [("Authorization", PStr ("Bearer " ++ api_key cfg));
                     ("Content-Type", PStr "application/json");
                     ("User-Agent", PStr "metabase-client-python/1.0.0")]
                    (headers cfg)) key) with
    | (_, v) :: _ => Some v
    | [] => None
    end.
Proof. simpl. now rewrite ci_get_update. Qed.

(** X4.  After construction the session's headers, which go with every
    request, hold [Authorization: Bearer <api key>],
    [Content-Type: application/json] and the client's [User-Agent], each
    of them unless the caller's headers have one of that name in any
    letter case. *)
Theorem fixed_headers_sent base key millis extra dbg :
  let sent := session_headers
                (session (MetaBaseClient_init
                            (MetaBaseConfig_init base key millis extra dbg))) in
  (ci_matches (or_empty extra) "Authorization" = [] ->
   ci_get sent "Authorization" = Some (PStr ("Bearer " ++ key)))
  /\ (ci_matches (or_empty extra) "Content-Type" = [] ->
      ci_get sent "Content-Type" = Some (PStr "application/json"))
  /\ (ci_matches (or_empty extra) "User-Agent" = [] ->
      ci_get sent "User-Agent" = Some (PStr "metabase-client-python/1.0.0"))
  /\ (forall env op, req_headers
                       (operation_request env
                          (MetaBaseClient_init
                             (MetaBaseConfig_init base key millis extra dbg)) op)
                     = sent).
Proof.
  cbv zeta.
  assert (Hh : headers (MetaBaseConfig_init base key millis extra dbg) = or_empty extra)
    by (now destruct extra).
  repeat split; try (intros env op; destruct op; reflexivity);
    intros Hfree; rewrite session_headers_lookup, Hh,
      ci_matches_update_other by exact Hfree; reflexivity.
Qed.

Lemma fixed_headers_sent_witness :
  ci_get (session_headers (session (local_client false))) "authorization"
  = Some (PStr "Bearer secret").
Proof.
  exact (proj1 (fixed_headers_sent "http://localhost:7609/" "secret" 30000 None false)
               eq_refl).
Defined.

(** X5.  A header that the caller configures, among headers whose names
    differ in more than letter case, is in the session's headers with the
    caller's value, also when its name is that of one of the three fixed
    headers in any letter case. *)
Theorem caller_headers_win base key millis extra dbg name value :
  NoDup (map (fun kv => lower (fst kv)) extra) ->
  In (name, value) extra ->
  ci_get (session_headers
            (session (MetaBaseClient_init
                        (MetaBaseConfig_init base key millis (Some extra) dbg))))
         name
  = Some value.
Proof.
  intros Hnodup Hin. rewrite session_headers_lookup. simpl headers. simpl api_key.
  set (fixed := [("Authorization", PStr ("Bearer " ++ key));
                 ("Content-Type", PStr "application/json");
                 ("User-Agent", PStr "metabase-client-python/1.0.0")]).
  assert (Hfixed : (List.length (ci_matches fixed name) <= 1)%nat).
  { unfold ci_matches, fixed. cbn [filter fst].
    change (lower "Authorization") with "authorization".
    change (lower "Content-Type") with "content-type".
    change (lower "User-Agent") with "user-agent".
    destruct (String.eqb "authorization" (lower name)) eqn:E1;
      destruct (String.eqb "content-type" (lower name)) eqn:E2;
      destruct (String.eqb "user-agent" (lower name)) eqn:E3; simpl; try lia;
      repeat match goal with H : String.eqb _ _ = true |- _ => apply String.eqb_eq in H end;
      congruence. }
  assert (Hlast : forall acc,
             (List.length (ci_matches acc name) <= 1)%nat ->
             exists before,
               ci_matches (dict_update acc extra) name = (before ++ [(name, value)])%list).
  { unfold dict_update. induction extra as [|[k v] rest IH]; [contradiction|].
    intros acc Hacc. simpl in Hnodup. inversion Hnodup as [|? ? Hfresh Hrest]; subst.
    simpl. destruct Hin as [Heq | Hin].
    - inversion Heq; subst.
      destruct (ci_matches_set_same acc name value Hacc) as [before Hb].
      exists before. rewrite <- Hb.
      apply (ci_matches_update_other (dict_set acc name value) rest name).
      unfold ci_matches.
      assert (Hnone : forall kv, In kv rest ->
                String.eqb (lower (fst kv)) (lower name) = false).
      { intros kv Hkv. destruct (String.eqb (lower (fst kv)) (lower name)) eqn:E; auto.
        apply String.eqb_eq in E. exfalso. apply Hfresh. simpl. rewrite <- E.
        now apply (in_map (fun kv => lower (fst kv))). }
      clear -Hnone. induction rest as [|kv rest IH]; simpl; auto.
      rewrite (Hnone kv) by now left. apply IH. intros kv' H. apply Hnone. now right.
    - apply (IH Hrest Hin).
      rewrite ci_matches_set_other; auto.
      destruct (String.eqb (lower k) (lower name)) eqn:E; auto.
      apply String.eqb_eq in E. exfalso. apply Hfresh. simpl. rewrite E.
      now apply (in_map (fun kv => lower (fst kv)) rest (name, value)). }
  destruct (Hlast fixed Hfixed) as [before Hb].
  rewrite Hb, rev_app_distr. reflexivity.
Qed.

Lemma caller_headers_win_witness :
  ci_get (session_headers
            (session (MetaBaseClient_init
                        (MetaBaseConfig_init "http://h" "secret" 30000
                           (Some [("authorization", PStr "Basic abc")]) false))))
         "Authorization"
  = Some (PStr "Basic abc").
Proof.
  refine (eq_trans _ (caller_headers_win "http://h" "secret" 30000
                        [("authorization", PStr "Basic abc")] false
                        "authorization" (PStr "Basic abc") _ _)).
  - reflexivity.
  - repeat constructor; simpl; intuition.
  - simpl; auto.
Defined.

(** ** Outcomes of the pipeline *)

(** X6.  Whatever the operation, a response with status 400 or more whose
    body decodes to something else than a mapping, or to a mapping whose
    [error] is not a mapping, makes the operation raise the
    [AttributeError] of the missing [get] instead of returning an
    envelope. *)
Theorem ill_shaped_error_body_raises env self op w response :
  network env (operation_request env self op) = Responded response ->
  400 <= status_code response ->
  ill_shaped (body response) = true ->
  exists description, fst (call env self op w) = Raise (AttributeError description).
Proof.
  intros Hnet Hstatus Hshape.
  rewrite call_outcome, Hnet. unfold envelope_of, error_of_response, get_or, no_get.
  replace (400 <=? status_code response) with true by (symmetry; apply Z.leb_le; lia).
  unfold ill_shaped in Hshape.
  destruct (body response) as [[ | ? | ? | ? | ? | entries | ? | ?] | description];
    try discriminate; try (eexists; reflexivity).
  destruct (dict_get entries "error") as [[ | ? | ? | ? | ? | info | ? | ?] | ];
    try discriminate; eexists; reflexivity.
Qed.

Lemma ill_shaped_error_body_raises_witness :
  exists description,
    fst (call (server_says 502 "Bad Gateway" (JsonBody (PDict [("error", PNone)])))
              (local_client false) (Query "users" None) fresh)
    = Raise (AttributeError description).
Proof.
  exact (ill_shaped_error_body_raises
           (server_says 502 "Bad Gateway" (JsonBody (PDict [("error", PNone)])))
           (local_client false) (Query "users" None) fresh _
           eq_refl ltac:(simpl; lia) eq_refl).
Defined.

(** X7.  A response with status below 400 whose body does not decode is
    reported as a [network_error], with the decoder's description as
    message: [response.json()] raises a [RequestException]. *)
Theorem undecodable_success_is_network_error env self m e d p w response description :
  network env (built_request env self m e d p) = Responded response ->
  status_code response < 400 ->
  body response = Unparsable description ->
  fst (_request env self m e d p w)
  = Return {| data := PNone; count := PNone; limit := PNone; offset := PNone;
              has_next := PNone;
              error := Some {| code := PStr "network_error";
                               message := PStr description;
                               details := PNone;
                               timestamp := PStr (strftime_iso (gmtime env)) |} |}.
Proof.
  intros Hnet Hstatus Hbody.
  rewrite _request_outcome, Hnet. unfold envelope_of.
  replace (400 <=? status_code response) with false by (symmetry; apply Z.leb_gt; lia).
  now rewrite Hbody.
Qed.

Lemma undecodable_success_is_network_error_witness :
  fst (_request (server_says 204 "No Content" (Unparsable "Expecting value"))
                (local_client false) "DELETE" "/rest/v1/users/7" None None fresh)
  = Return {| data := PNone; count := PNone; limit := PNone; offset := PNone;
              has_next := PNone;
              error := Some {| code := PStr "network_error";
                               message := PStr "Expecting value";
                               details := PNone;
                               timestamp := PStr "2024-03-09T12:00:05Z" |} |}.
Proof.
  exact (undecodable_success_is_network_error
           (server_says 204 "No Content" (Unparsable "Expecting value"))
           (local_client false) "DELETE" "/rest/v1/users/7" None None fresh _
           "Expecting value" eq_refl ltac:(simpl; lia) eq_refl).
Defined.

(** X8.  A response with status 400 or more whose body is a mapping without an
    [error] key gives the fallback error: [http_<status>], the reason
    phrase, no details, and [datetime.utcnow().isoformat()] as timestamp
    (not the [strftime] text of the two [except] paths). *)
Theorem error_body_without_error_key env self m e d p w response entries :
  network env (built_request env self m e d p) = Responded response ->
  400 <= status_code response ->
  body response = JsonBody (PDict entries) ->
  dict_get entries "error" = None ->
  fst (_request env self m e d p w)
  = Return {| data := PNone; count := PNone; limit := PNone; offset := PNone;
              has_next := PNone;
              error := Some {| code := PStr ("http_" ++ str_int (status_code response));
                               message := PStr (reason response);
                               details := PNone;
                               timestamp := PStr (utcnow_isoformat env) |} |}.
Proof.
  intros Hnet Hstatus Hbody Hkey.
  rewrite _request_outcome, Hnet. unfold envelope_of, error_of_response.
  replace (400 <=? status_code response) with true by (symmetry; apply Z.leb_le; lia).
  rewrite Hbody. unfold get_or. rewrite Hkey. reflexivity.
Qed.

Lemma error_body_without_error_key_witness :
  fst (_request (server_says 503 "Service Unavailable"
                   (JsonBody (PDict [("detail", PStr "maintenance")])))
                (local_client false) "GET" "/ping" None None fresh)
  = Return {| data := PNone; count := PNone; limit := PNone; offset := PNone;
              has_next := PNone;
              error := Some {| code := PStr "http_503";
                               message := PStr "Service Unavailable";
                               details := PNone;
                               timestamp := PStr "2024-03-09T12:00:05.000321" |} |}.
Proof.
  exact (error_body_without_error_key
           (server_says 503 "Service Unavailable"
              (JsonBody (PDict [("detail", PStr "maintenance")])))
           (local_client false) "GET" "/ping" None None fresh _ _
           eq_refl ltac:(simpl; lia) eq_refl eq_refl).
Defined.

Lemma truthy_py_or (a b : pyval) : truthy b = true -> truthy (py_or a b) = true.
Proof. intros H. unfold py_or. now destruct (truthy a) eqn:E. Qed.

(** X9.  Every error that an operation returns has a timestamp: a server
    timestamp that is missing, null or empty is replaced by the clock's
    (the clock's [isoformat] text being non-empty). *)
Theorem errors_carry_a_timestamp env self op w envelope err :
  utcnow_isoformat env <> EmptyString ->
  fst (call env self op w) = Return envelope ->
  error envelope = Some err ->
  truthy (timestamp err) = true.
Proof.
  intros Hclock.
  assert (Hutc : truthy (PStr (utcnow_isoformat env)) = true).
  { simpl. destruct (String.eqb (utcnow_isoformat env) EmptyString) eqn:E; auto.
    apply String.eqb_eq in E. contradiction. }
  rewrite call_outcome. unfold envelope_of, error_of_response, error_envelope.
  destruct (network env (operation_request env self op)) as [response | description].
  - destruct (400 <=? status_code response).
    + destruct (body response) as [[ | ? | ? | ? | ? | entries | ? | ?] | description];
        try discriminate.
      * destruct (get_or entries "error" (PDict [])) as [ | ? | ? | ? | ? | info | ? | ?]; try discriminate.
        intros H He. inversion H; subst. inversion He; subst.
        now apply truthy_py_or.
      * intros H He. inversion H; subst. inversion He; subst.
        now apply truthy_py_or.
    + destruct (body response) as [[ | ? | ? | ? | ? | entries | ? | ?] | description];
        intros H He; inversion H; subst; try discriminate.
      inversion He; subst. apply strftime_iso_truthy.
  - intros H He. inversion H; subst. inversion He; subst. apply strftime_iso_truthy.
Qed.

Lemma errors_carry_a_timestamp_witness :
  truthy (PStr "2024-03-09T12:00:05.000321") = true.
Proof.
  exact (errors_carry_a_timestamp
           (server_says 500 "Internal Server Error"
              (JsonBody (PDict [("error", PDict [("timestamp", PNone)])])))
           (local_client false) Health fresh _ _
           ltac:(discriminate) eq_refl eq_refl).
Defined.

(** ** Parameters of the builders *)

(** X10.  [query] reads [select], [where], [order], [limit] and [offset] only:
    whatever [joins], [group_by] and [having] hold, the request and its
    outcome are those of the options without them. *)
Theorem query_ignores_joins_group_by_having
    env self table sel wh ord lim off j g h w :
  query_params (Some (QueryOptions_init sel wh ord lim off j g h))
  = query_params (Some (QueryOptions_init sel wh ord lim off None None None))
  /\ query env self table (Some (QueryOptions_init sel wh ord lim off j g h)) w
     = query env self table (Some (QueryOptions_init sel wh ord lim off None None None)) w.
Proof. split; reflexivity. Qed.

Lemma has_key_set (d : dict) (key k : string) (v : pyval) :
  has_key (dict_set d k v) key = String.eqb k key || has_key d key.
Proof.
  destruct (String.eqb k key) eqn:E.
  - apply String.eqb_eq in E. subst. unfold has_key. now rewrite dict_get_set_same.
  - apply has_key_set_other. intros ->. now rewrite String.eqb_refl in E.
Qed.

Lemma has_key_fold_conditions (conditions params : dict) (key : string) :
  has_key (fold_left add_condition conditions params) key
  = has_key conditions key || has_key params key.
Proof.
  revert params. induction conditions as [|[k v] rest IH]; intros params; simpl.
  - reflexivity.
  - rewrite IH. unfold add_condition. simpl. rewrite has_key_set.
    unfold has_key at 3. simpl.
    destruct (String.eqb k key); simpl.
    + now rewrite orb_true_r.
    + reflexivity.
Qed.

(** X11.  The parameters of [update] and of [delete] are the filters' names and,
    when columns are asked back, [returning]: no filter is dropped and no
    other name appears.  Both operations build the same parameters. *)
Theorem filter_params_names options conditions key :
  has_key (update_params options conditions) key
  = has_key conditions key
    || (String.eqb "returning" key && list_truthy (returning_columns options))
  /\ delete_params options conditions = update_params options conditions
  /\ (list_truthy (returning_columns options) = true ->
      dict_get (update_params options conditions) "returning"
      = Some (PStr (join "," (returning_columns options)))).
Proof.
  split; [|split].
  - rewrite update_params_unfold. cbv zeta.
    destruct options as [o|]; simpl.
    + destruct (list_truthy (upd_returning o)).
      * rewrite has_key_set, has_key_fold_conditions.
        unfold has_key at 2. simpl.
        rewrite orb_false_r, andb_true_r. apply orb_comm.
      * rewrite has_key_fold_conditions. unfold has_key at 2. simpl.
        now rewrite andb_false_r.
    + rewrite has_key_fold_conditions. unfold has_key at 2. simpl.
      now rewrite andb_false_r.
  - reflexivity.
  - rewrite update_params_unfold. cbv zeta.
    destruct options as [o|]; simpl; [|discriminate].
    intros ->. apply dict_get_set_same.
Qed.

Lemma filter_params_names_witness :
  dict_get (update_params (Some (UpdateOptions_init (Some ["id"; "name"])))
                          [("returning", PStr "x")])
           "returning"
  = Some (PStr "id,name").
Proof.
  exact (proj2 (proj2 (filter_params_names
                         (Some (UpdateOptions_init (Some ["id"; "name"])))
                         [("returning", PStr "x")] "returning"))
               eq_refl).
Defined.

Ltac skip_later_options :=
  repeat match goal with
         | |- context [if truthy ?v then dict_set _ _ _ else _] => destruct (truthy v)
         end;
  rewrite ?dict_get_set_other by discriminate.

(** X12.  An option of [query] that is set wins over a condition of the same
    name: a non-zero [limit] or [offset] and a non-empty [order] are sent
    as given, whatever [where] holds.  The columns of [select] are sent
    comma-joined when [where] has no condition named [select]. *)
Theorem query_options_win o :
  (forall n, q_limit o = Some n -> n <> 0 ->
             dict_get (query_params (Some o)) "limit" = Some (PInt n))
  /\ (forall n, q_offset o = Some n -> n <> 0 ->
                dict_get (query_params (Some o)) "offset" = Some (PInt n))
  /\ (forall s, order o = Some s -> s <> EmptyString ->
                dict_get (query_params (Some o)) "order" = Some (PStr s))
  /\ (select o <> [] -> has_key (where_ o) "select" = false ->
      dict_get (query_params (Some o)) "select" = Some (PStr (join "," (select o)))).
Proof.
  rewrite query_params_unfold. cbv zeta.
  split; [|split; [|split]].
  - intros n Hn Hnz. rewrite Hn.
    replace (truthy (py_of_int (Some n))) with true
      by (simpl; apply Z.eqb_neq in Hnz; now rewrite Hnz).
    skip_later_options; apply dict_get_set_same.
  - intros n Hn Hnz. rewrite Hn.
    replace (truthy (py_of_int (Some n))) with true
      by (simpl; apply Z.eqb_neq in Hnz; now rewrite Hnz).
    apply dict_get_set_same.
  - intros s Hs Hne. rewrite Hs.
    replace (truthy (py_of_str (Some s))) with true
      by (simpl; destruct (String.eqb s EmptyString) eqn:E; auto;
          apply String.eqb_eq in E; contradiction).
    skip_later_options; apply dict_get_set_same.
  - intros Hsel Hwhere.
    replace (list_truthy (select o)) with true by (now destruct (select o)).
    skip_later_options;
      (destruct (list_truthy (where_ o));
       [rewrite conditions_keep_other
          by (apply dict_get_None_keys; unfold has_key in Hwhere;
              now destruct (dict_get (where_ o) "select"))|];
       apply dict_get_set_same).
Qed.

Lemma query_options_win_witness :
  dict_get (query_params
              (Some (QueryOptions_init None (Some [("limit", PInt 5)]) None (Some 10)
                                       None None None None)))
           "limit"
  = Some (PInt 10).
Proof.
  exact (proj1 (query_options_win
                  (QueryOptions_init None (Some [("limit", PInt 5)]) None (Some 10)
                                     None None None None))
               10 eq_refl ltac:(discriminate)).
Defined.

(** X13.  [insert], [update_one] and [delete_one] send at most one parameter:
    nothing when there is no option or its list of columns is empty, and
    otherwise [returning] with the columns comma-joined. *)
Theorem returning_is_the_only_parameter columns :
  let sent := match columns with
              | [] => []
              | _ => [("returning", PStr (join "," columns))]
              end in
  insert_params (Some (InsertOptions_init (Some columns))) = sent
  /\ update_one_params (Some (UpdateOptions_init (Some columns))) = sent
  /\ delete_one_params (Some (UpdateOptions_init (Some columns))) = sent
  /\ insert_params None = [] /\ insert_params (Some (InsertOptions_init None)) = []
  /\ update_one_params None = [] /\ update_one_params (Some (UpdateOptions_init None)) = []
  /\ delete_one_params None = [] /\ delete_one_params (Some (UpdateOptions_init None)) = [].
Proof. destruct columns; repeat split; reflexivity. Qed.

(** ** Slashes *)

(** X14.  However many slashes end the base URL and however many start the
    endpoint, the request URL is the join of the base without them, one
    slash, and the endpoint without them. *)
Theorem any_number_of_slashes env key millis extra dbg base endpoint n k :
  request_url env
              (MetaBaseClient_init
                 (MetaBaseConfig_init (base ++ slashes n) key millis extra dbg))
              (slashes k ++ endpoint)
  = urljoin env (rstrip slash base ++ "/") (lstrip slash endpoint).
Proof.
  unfold request_url. simpl. now rewrite rstrip_slashes, lstrip_slashes.
Qed.

(** X15.  The configured URL is the given one without its trailing slashes and
    nothing else: it does not end with a slash, the given URL is it
    followed by slashes only, and a URL without trailing slash is kept as
    it is. *)
Theorem config_url_drops_trailing_slashes_only base key millis extra dbg :
  let cfg := MetaBaseConfig_init base key millis extra dbg in
  ends_with slash (url cfg) = false
  /\ (exists n, base = url cfg ++ slashes n)
  /\ (ends_with slash base = false -> url cfg = base).
Proof.
  cbv zeta. simpl. split; [apply rstrip_not_ends_with|]. split; [apply rstrip_decompose|].
  induction base as [|a t IH]; simpl; auto.
  destruct t as [|b u].
  - simpl. intros ->. reflexivity.
  - intros H. specialize (IH H). rewrite IH. reflexivity.
Qed.

Lemma config_url_drops_trailing_slashes_only_witness :
  url (MetaBaseConfig_init "http://h/api" "k" 30000 None false) = "http://h/api".
Proof.
  exact (proj2 (proj2 (config_url_drops_trailing_slashes_only
                         "http://h/api" "k" 30000 None false))
               eq_refl).
Defined.

(** ** Scalars in filters *)

Lemma length_append (s t : string) :
  String.length (s ++ t) = (String.length s + String.length t)%nat.
Proof. induction s as [|a u IH]; simpl; congruence. Qed.

Lemma json_escape_char_length (c : ascii) :
  (1 <= String.length (json_escape_char c))%nat.
Proof.
  unfold json_escape_char.
  repeat match goal with
         | |- context [if ?b then _ else _] => destruct b
         end; simpl; lia.
Qed.

Lemma json_escape_length (s : string) :
  (String.length s <= String.length (json_escape s))%nat.
Proof.
  induction s as [|c t IH]; simpl; auto.
  rewrite length_append. pose proof (json_escape_char_length c). lia.
Qed.

Lemma json_string_differs (s : string) : s <> json_string s.
Proof.
  intros H. apply (f_equal String.length) in H.
  unfold json_string in H. simpl in H. rewrite length_append in H. simpl in H.
  pose proof (json_escape_length s). lia.
Qed.

(** X16.  A filter value that is neither a dict nor a list is sent in its
    Python string form, which is its JSON text for an integer and for a
    float only: a string goes unquoted, a boolean as [True] or [False],
    [None] as [None] and a tuple in parentheses. *)
Theorem scalar_filters_are_not_json value :
  isinstance_dict_or_list value = false ->
  filter_text value = PStr (py_str value)
  /\ (py_str value = json_dumps value
      <-> (exists n, value = PInt n) \/ (exists r, value = PFloat r)).
Proof.
  intros Hscalar. unfold filter_text. rewrite Hscalar. split; [reflexivity|].
  destruct value as [ | b | n | s | items | entries | r | items]; try discriminate.
  - split; [discriminate | intros [[n H] | [r H]]; discriminate].
  - split; [destruct b; discriminate | intros [[n H] | [r H]]; discriminate].
  - split; [intros _; left; now exists n | reflexivity].
  - split; [intros H; now apply json_string_differs in H
           | intros [[n H] | [r H]]; discriminate].
  - split; [intros _; right; now exists r | reflexivity].
  - split; [|intros [[n H] | [r H]]; discriminate].
    unfold py_str. simpl. destruct items as [|x [|y rest]]; discriminate.
Qed.

Lemma scalar_filters_are_not_json_witness :
  filter_text (PTuple [PInt 1; PInt 2]) = PStr "(1, 2)".
Proof.
  exact (proj1 (scalar_filters_are_not_json (PTuple [PInt 1; PInt 2]) eq_refl)).
Defined.

(** ** Methods and bodies *)

(** X17.  Every operation sends [GET], [POST], [PATCH] or [DELETE], and the
    request has a body exactly when the method is [POST] or [PATCH]: no
    [GET] and no [DELETE] carries one. *)
Theorem bodies_only_on_writes env self op w :
  exists request,
    wire (snd (call env self op w)) = (wire w ++ [request])%list
    /\ In (req_method request) ["GET"; "POST"; "PATCH"; "DELETE"]
    /\ (req_json request = None
        <-> req_method request = "GET" \/ req_method request = "DELETE").
Proof.
  eexists. split; [apply call_wire|].
  destruct op; simpl; (split; [tauto|]);
    split; intros H; auto; try discriminate;
    destruct H; discriminate.
Qed.
